(** * DubiFitness backend: booking admission and payment reconciliation

    A shallow embedding of the booking handlers of [src/routes/bookings.ts]
    (create, list, cancel), of the webhook part of [src/routes/payments.ts]
    (the MercadoPago webhook handler and the functions it calls, in both
    copies of the router the file holds) and of its [GET /:paymentId], with
    the properties of the natural-language specification stated over it.

    Conventions of the embedding:
    - a table is the list of its rows in storage (rowid) order; a [select]
      without [ORDER BY] scans the table in that order, [.limit(1)] keeps
      the first match, an [update ... where] rewrites every matching row in
      place, an [insert] appends a row with an AUTOINCREMENT id;
    - only the columns the handlers read or write are kept;
    - [req.user] is the object [authenticateToken] builds
      ([src/middleware/auth.ts]), read property by property;
    - the database client refuses what it cannot bind, before the statement
      reaches the database: [undefined] and [NaN] as parameters, a number
      given to a column declared [{ mode: 'timestamp' }] (the driver calls
      [getTime()] on the value); the database refuses an insert that leaves
      a [NOT NULL] column without default unset; any awaited database call
      may moreover be rejected, as the environment says;
    - a timestamp column keeps whole seconds; the clock of the environment
      is read in that unit, once per request;
    - JSON numbers are integers, small enough for JavaScript's numbers to
      hold them exactly. *)

From Stdlib Require Import ZArith List String Ascii Bool Lia DecimalString.
From Stdlib Require DecimalPos DecimalZ.
Import ListNotations.
Local Open Scope string_scope.
Local Open Scope list_scope.
Local Open Scope Z_scope.

(** ** JavaScript values as the handlers see them *)

Module Js.

(** A parsed JSON value.  [undefined] (an absent property) is [None] at
    type [option jsval]. *)
#[local] Unset Elimination Schemes.
Inductive jsval : Type :=
| JNull
| JBool (b : bool)
| JNum (n : Z)
| JStr (s : string)
| JArr (items : list jsval)
| JObj (fields : list (string * jsval)).
#[local] Set Elimination Schemes.

Definition object := list (string * jsval).

(** Property read on an object literal: the last binding of a key wins
    when JSON text repeats it, as [JSON.parse] does. *)
Fixpoint get (k : string) (o : object) : option jsval :=
  match o with
  | [] => None
  | (k', v) :: rest =>
      match get k rest with
      | Some w => Some w
      | None => if String.eqb k k' then Some v else None
      end
  end.

(** [v.k] for a value that is already known not to be null/undefined:
    only objects carry own properties here. *)
Definition prop (k : string) (v : jsval) : option jsval :=
  match v with
  | JObj o => get k o
  | _ => None
  end.

(** ToBoolean. *)
Definition truthy (v : option jsval) : bool :=
  match v with
  | None => false
  | Some JNull => false
  | Some (JBool b) => b
  | Some (JNum n) => negb (n =? 0)
  | Some (JStr s) => negb (String.eqb s "")
  | Some (JArr _) => true
  | Some (JObj _) => true
  end.

(** Strict equality of a value with a string literal ([switch] cases). *)
Definition is_str (lit : string) (v : option jsval) : bool :=
  match v with
  | Some (JStr s) => String.eqb s lit
  | _ => false
  end.

(** The decimal digits of an integer, as [Number.prototype.toString]
    prints the integers that a JavaScript number holds exactly. *)
Definition string_of_Z (n : Z) : string :=
  NilZero.string_of_int (Z.to_int n).

(** Whether a value can be converted to a string.  An object parsed from
    JSON that has a key [toString] of its own hides
    [Object.prototype.toString] behind a value that cannot be called, and
    the conversion throws a TypeError; an array converts its items. *)
Fixpoint printable (v : jsval) : bool :=
  match v with
  | JArr items =>
      (fix all (l : list jsval) : bool :=
         match l with
         | [] => true
         | x :: rest => printable x && all rest
         end) items
  | JObj o =>
      match get "toString" o with
      | Some _ => false
      | None => true
      end
  | _ => true
  end.

(** The text of a printable value: arrays join their items with commas,
    null items printing as the empty string. *)
Fixpoint to_str (v : jsval) : string :=
  match v with
  | JNull => "null"
  | JBool true => "true"
  | JBool false => "false"
  | JNum n => string_of_Z n
  | JStr s => s
  | JArr items =>
      (fix join (l : list jsval) : string :=
         match l with
         | [] => ""
         | x :: rest =>
             let sx := match x with JNull => "" | _ => to_str x end in
             match rest with
             | [] => sx
             | _ => (sx ++ "," ++ join rest)%string
             end
         end) items
  | JObj _ => "[object Object]"
  end.

(** [v.toString()]: a TypeError ([None]) on null and undefined, and on a
    value that is not printable. *)
Definition toString (v : option jsval) : option string :=
  match v with
  | None => None
  | Some JNull => None
  | Some w => if printable w then Some (to_str w) else None
  end.

(** [`${v}`] inside a template literal: a TypeError ([None]) on a value
    that is not printable. *)
Definition template (v : option jsval) : option string :=
  match v with
  | None => Some "undefined"
  | Some w => if printable w then Some (to_str w) else None
  end.

(** The template literal can be built. *)
Definition renders (v : option jsval) : bool :=
  match template v with
  | Some _ => true
  | None => false
  end.

(** *** [parseInt] with no radix argument

    Text is kept as the bytes of its UTF-8 encoding.  The value is exact:
    it is the one JavaScript computes as long as a JavaScript number holds
    it exactly. *)

(** The white space and line terminators of one byte: space, tab, line
    feed, vertical tab, form feed, carriage return. *)
Definition is_ws (c : ascii) : bool :=
  let n := nat_of_ascii c in
  ((n =? 32) || (n =? 9) || (n =? 10) || (n =? 11) || (n =? 12) || (n =? 13))%nat.

(** The first byte of the other white space: U+00A0 is two bytes,
    U+1680, U+2000 to U+200A, U+2028, U+2029, U+202F, U+205F, U+3000 and
    U+FEFF are three. *)
Definition is_ws_lead (c : ascii) : bool :=
  let n := nat_of_ascii c in
  ((n =? 194) || (n =? 225) || (n =? 226) || (n =? 227) || (n =? 239))%nat.

Definition is_ws2 (c1 c2 : ascii) : bool :=
  ((nat_of_ascii c1 =? 194) && (nat_of_ascii c2 =? 160))%nat.

Definition is_ws3 (c1 c2 c3 : ascii) : bool :=
  let a := nat_of_ascii c1 in
  let b := nat_of_ascii c2 in
  let c := nat_of_ascii c3 in
  (((a =? 225) && (b =? 154) && (c =? 128))
   || ((a =? 226) && (b =? 128)
       && (((128 <=? c) && (c <=? 138)) || (c =? 168) || (c =? 169) || (c =? 175)))
   || ((a =? 226) && (b =? 129) && (c =? 159))
   || ((a =? 227) && (b =? 128) && (c =? 128))
   || ((a =? 239) && (b =? 187) && (c =? 191)))%nat.

Fixpoint skip_ws (s : string) : string :=
  match s with
  | String c rest =>
      if is_ws c then skip_ws rest
      else if is_ws_lead c then
        match rest with
        | String c2 rest2 =>
            if is_ws2 c c2 then skip_ws rest2
            else
              match rest2 with
              | String c3 rest3 => if is_ws3 c c2 c3 then skip_ws rest3 else s
              | EmptyString => s
              end
        | EmptyString => s
        end
      else s
  | EmptyString => s
  end.

Definition digit_of (radix : Z) (c : ascii) : option Z :=
  let n := Z.of_nat (nat_of_ascii c) in
  let d :=
    if (48 <=? n) && (n <=? 57) then Some (n - 48)
    else if (97 <=? n) && (n <=? 102) then Some (n - 87)
    else if (65 <=? n) && (n <=? 70) then Some (n - 55)
    else None in
  match d with
  | Some v => if v <? radix then Some v else None
  | None => None
  end.

(** Longest prefix of digits; [None] when there is no digit at all. *)
Fixpoint digits (radix : Z) (s : string) (acc : option Z) : option Z :=
  match s with
  | String c rest =>
      match digit_of radix c with
      | Some d =>
          digits radix rest
            (Some (match acc with Some a => a * radix + d | None => d end))
      | None => acc
      end
  | EmptyString => acc
  end.

(** [None] is NaN. *)
Definition parseInt (s : string) : option Z :=
  let s := skip_ws s in
  let '(sign, s) :=
    match s with
    | String "-" rest => (-1, rest)
    | String "+" rest => (1, rest)
    | _ => (1, s)
    end in
  let '(radix, s) :=
    match s with
    | String "0" (String "x" rest) => (16, rest)
    | String "0" (String "X" rest) => (16, rest)
    | _ => (10, s)
    end in
  match digits radix s None with
  | Some v => Some (sign * v)
  | None => None
  end.

End Js.

(** ** Bookings: [src/routes/bookings.ts] *)

Module Bookings.
Import Js.

(** The [status] enum of the [bookings] table. *)
Inductive booking_status : Type :=
| confirmed | cancelled | waitlist | attended | no_show.

Definition status_eqb (a b : booking_status) : bool :=
  match a, b with
  | confirmed, confirmed | cancelled, cancelled | waitlist, waitlist
  | attended, attended | no_show, no_show => true
  | _, _ => false
  end.

(** The text of a status in the [status] column. *)
Definition status_text (s : booking_status) : string :=
  match s with
  | confirmed => "confirmed"
  | cancelled => "cancelled"
  | waitlist => "waitlist"
  | attended => "attended"
  | no_show => "no_show"
  end.

(** A row of [classes]. *)
Record Class : Type := mkClass {
  cl_id : Z;
  cl_capacity : Z;
  cl_isActive : bool
}.

(** A row of [bookings].  [gym_id], [user_id] and [class_id] are declared
    [NOT NULL] and have no default. *)
Record Booking : Type := mkBooking {
  bk_id : Z;
  bk_gymId : Z;
  bk_userId : Z;
  bk_classId : Z;
  bk_status : booking_status;
  bk_notes : option string;
  bk_bookedAt : Z;
  bk_cancelledAt : option Z;
  bk_updatedAt : Z
}.

(** The part of the database the booking handlers touch.  [seq] is the
    AUTOINCREMENT high-water mark of [bookings]. *)
Record Db : Type := mkDb {
  classes : list Class;
  bookings : list Booking;
  seq : Z
}.

(** *** [req.user] after [authenticateToken]

    The middleware ([src/middleware/auth.ts]) sets [req.user] to one of two
    object literals and calls [next()] only then. *)

(** [{ userId: user[0].id, gymId: user[0].gymId, email: user[0].email,
      userType: 'user' }] *)
Definition req_user_of_user (userId gymId : Z) (email : string) : object :=
  [("userId", JNum userId); ("gymId", JNum gymId); ("email", JStr email);
   ("userType", JStr "user")].

(** [{ ownerId: owner[0].id, email: owner[0].email, userType: 'gym_owner' }] *)
Definition req_user_of_owner (ownerId : Z) (email : string) : object :=
  [("ownerId", JNum ownerId); ("email", JStr email);
   ("userType", JStr "gym_owner")].

Inductive authenticated : object -> Prop :=
| authenticated_user userId gymId email :
    authenticated (req_user_of_user userId gymId email)
| authenticated_owner ownerId email :
    authenticated (req_user_of_owner ownerId email).

(** *** The environment of one request *)

Inductive db_op : Type :=
| SelectClass | SelectExistingBooking | CountBookings | InsertBooking
| SelectMyBookings
| SelectBooking | UpdateCancelled | SelectWaitlist | UpdateConfirmed.

(** The clock, and which database calls are rejected. *)
Record Env : Type := mkEnv {
  now : Z;
  db_fails : db_op -> bool
}.

Inductive body : Type :=
| Created (booking : Booking) (message : string)
| Updated (booking : option Booking)
| Listed (rows : list (Booking * Class))
| Error (msg : string)
| ZodIssues.

Record response : Type := mkResponse {
  res_status : Z;
  res_json : body
}.

(** *** Async code over the database

    A computation reads and writes the database and either returns or
    throws; writes made before a throw stay. *)

Inductive outcome (A : Type) : Type :=
| Return (a : A)
| Throw.
Arguments Return {A} a.
Arguments Throw {A}.

Definition M (A : Type) : Type := Db -> outcome A * Db.

Definition ret {A} (a : A) : M A := fun db => (Return a, db).

Definition throw {A} : M A := fun db => (Throw, db).

Definition bind {A B} (m : M A) (f : A -> M B) : M B :=
  fun db =>
    let '(o, db1) := m db in
    match o with
    | Return a => f a db1
    | Throw => (Throw, db1)
    end.

Declare Scope await_scope.
Delimit Scope await_scope with await.
Notation "x <- m ;; k" := (bind m (fun x => k))
  (at level 61, m at next level, right associativity) : await_scope.
Notation "m ;; k" := (bind m (fun _ => k))
  (at level 61, right associativity) : await_scope.
Local Open Scope await_scope.

(** The [catch] of the three handlers, past the ZodError case: whatever
    was thrown is logged and answered 500 with the handler's message. *)
Definition respond (failure : string) (m : M response) (db : Db)
  : response * Db :=
  match m db with
  | (Return r, db') => (r, db')
  | (Throw, db') => (mkResponse 500 (Error failure), db')
  end.

(** [createBookingSchema.parse(req.body)]: [None] is a ZodError. *)
Definition createBookingSchema_parse (b : jsval)
  : option (Z * option string) :=
  match b with
  | JObj o =>
      match get "classId" o with
      | Some (JNum classId) =>
          match get "notes" o with
          | None => Some (classId, None)
          | Some (JStr n) => Some (classId, Some n)
          | Some _ => None
          end
      | _ => None
      end
  | _ => None
  end.

(** [db.select().from(classes).where(eq(classes.id, classId)).limit(1)] *)
Definition select_class (classId : Z) (db : Db) : option Class :=
  find (fun c => cl_id c =? classId) (classes db).

(** The duplicate-booking query of the create handler (lines 29-35). *)
Definition existingBooking (userId classId : Z) (db : Db) : list Booking :=
  firstn 1
    (filter (fun b => (bk_userId b =? userId) && (bk_classId b =? classId)
                      && status_eqb (bk_status b) confirmed)
            (bookings db)).

(** The capacity query of the create handler (lines 42-49). *)
Definition currentBookings (classId : Z) (db : Db) : Z :=
  Z.of_nat (List.length
    (filter (fun b => (bk_classId b =? classId)
                      && status_eqb (bk_status b) confirmed)
            (bookings db))).

(** AUTOINCREMENT: one more than the largest rowid ever used. *)
Definition next_id (db : Db) : Z :=
  1 + fold_right Z.max (seq db) (map bk_id (bookings db)).

(** [db.update(bookings).set(f).where(eq(bookings.id, bookingId))] *)
Definition update_by_id (bookingId : Z) (f : Booking -> Booking)
    (rows : list Booking) : list Booking :=
  map (fun b => if bk_id b =? bookingId then f b else b) rows.

Definition set_cancelled (now : Z) (b : Booking) : Booking :=
  mkBooking (bk_id b) (bk_gymId b) (bk_userId b) (bk_classId b) cancelled
            (bk_notes b) (bk_bookedAt b) (Some now) now.

Definition set_confirmed (now : Z) (b : Booking) : Booking :=
  mkBooking (bk_id b) (bk_gymId b) (bk_userId b) (bk_classId b) confirmed
            (bk_notes b) (bk_bookedAt b) (bk_cancelledAt b) now.

(** The waitlist query of the cancel handler (lines 177-182): no
    ordering is requested. *)
Definition waitlistBooking (classId : Z) (rows : list Booking)
  : option Booking :=
  find (fun b => (bk_classId b =? classId) && status_eqb (bk_status b) waitlist)
       rows.

(** [bookings INNER JOIN classes ON bookings.classId = classes.id],
    filtered by [keep]. *)
Definition join_classes (keep : Booking -> bool) (db : Db)
  : list (Booking * Class) :=
  flat_map (fun b =>
              if keep b then
                map (fun c => (b, c))
                    (filter (fun c => bk_classId b =? cl_id c) (classes db))
              else [])
           (bookings db).

Section Handlers.

Variable env : Env.

(** One awaited database call. *)
Definition db_call {A} (op : db_op) (f : Db -> A * Db) : M A :=
  fun db =>
    if db_fails env op then (Throw, db)
    else let '(a, db') := f db in (Return a, db').

(** A value bound to a statement as an integer parameter.  The client
    refuses [undefined]; the handlers bind nothing but numbers and
    [undefined] here. *)
Definition bind_param (v : option jsval) : M Z :=
  match v with
  | Some (JNum n) => ret n
  | _ => throw
  end.

(** The result of [parseInt] bound as a parameter: NaN is refused. *)
Definition bind_number (n : option Z) : M Z :=
  match n with
  | Some k => ret k
  | None => throw
  end.

(** [db.insert(bookings).values({ ... }).returning()]: the columns that
    are not given take their default ([bookedAt], [updatedAt]: the clock;
    [cancelledAt]: null); [gym_id] and [user_id] have none and must be
    given. *)
Definition insert_booking (gymId userId : option jsval) (classId : Z)
    (st : booking_status) (notes : option string) : M Booking :=
  match gymId, userId with
  | Some (JNum g), Some (JNum u) =>
      db_call InsertBooking (fun db =>
        let row := mkBooking (next_id db) g u classId st notes
                             (now env) None (now env) in
        (row, mkDb (classes db) (bookings db ++ [row]) (next_id db)))
  | _, _ => throw
  end.

(** [POST /] (lines 17-75), after [authenticateToken] has set [req.user].
    The values of the insert are [userId], [classId], [status] and
    [notes]: no [gymId] is among them. *)
Definition create_booking (req_user : object) (req_body : jsval) (db : Db)
  : response * Db :=
  match createBookingSchema_parse req_body with
  | None => (mkResponse 400 ZodIssues, db)
  | Some (classId, notes) =>
      let userId := get "id" req_user in
      respond "Failed to create booking"
        (classData <- db_call SelectClass
                        (fun db => (select_class classId db, db)) ;;
         match classData with
         | None => ret (mkResponse 404 (Error "Class not found or inactive"))
         | Some class0 =>
             if negb (cl_isActive class0) then
               ret (mkResponse 404 (Error "Class not found or inactive"))
             else
               existing <-
                 (u <- bind_param userId ;;
                  db_call SelectExistingBooking
                    (fun db => (existingBooking u classId db, db))) ;;
               if (0 <? Z.of_nat (List.length existing)) then
                 ret (mkResponse 400
                        (Error "You already have a booking for this class"))
               else
                 count <- db_call CountBookings
                            (fun db => (currentBookings classId db, db)) ;;
                 let status :=
                   if count >=? cl_capacity class0
                   then waitlist else confirmed in
                 newBooking <- insert_booking None userId classId status notes ;;
                 ret (mkResponse 201
                        (Created newBooking
                           (match status with
                            | waitlist => "Added to waitlist"
                            | _ => "Booking confirmed"
                            end)))
         end) db
  end.

(** [GET /my-bookings] (lines 78-108).  [status] is [req.query.status]
    when it is a string, [None] otherwise; an empty string is falsy. *)
Definition my_bookings (req_user : object) (status : option string) (db : Db)
  : response * Db :=
  let userId := get "id" req_user in
  respond "Failed to get bookings"
    (u <- bind_param userId ;;
     userBookings <-
       db_call SelectMyBookings (fun db =>
         (match status with
          | Some s =>
              if negb (String.eqb s "") then
                join_classes
                  (fun b => (bk_userId b =? u)
                            && String.eqb (status_text (bk_status b)) s) db
              else join_classes (fun b => bk_userId b =? u) db
          | None => join_classes (fun b => bk_userId b =? u) db
          end, db)) ;;
     ret (mkResponse 200 (Listed userBookings))) db.

(** [PATCH /:bookingId/cancel] (lines 144-196); [bookingId_param] is the
    path segment. *)
Definition cancel_booking (req_user : object) (bookingId_param : string)
    (db : Db) : response * Db :=
  let userId := get "id" req_user in
  respond "Failed to cancel booking"
    (bookingId <- bind_number (parseInt bookingId_param) ;;
     booking <-
       (u <- bind_param userId ;;
        db_call SelectBooking (fun db =>
          (find (fun b => (bk_id b =? bookingId) && (bk_userId b =? u))
                (bookings db), db))) ;;
     match booking with
     | None => ret (mkResponse 404 (Error "Booking not found"))
     | Some booking0 =>
         if status_eqb (bk_status booking0) cancelled then
           ret (mkResponse 400 (Error "Booking already cancelled"))
         else
           updatedBooking <-
             db_call UpdateCancelled (fun db =>
               let rows := update_by_id bookingId (set_cancelled (now env))
                                        (bookings db) in
               (filter (fun b => bk_id b =? bookingId) rows,
                mkDb (classes db) rows (seq db))) ;;
           (if status_eqb (bk_status booking0) confirmed then
              next <- db_call SelectWaitlist (fun db =>
                        (waitlistBooking (bk_classId booking0) (bookings db), db)) ;;
              match next with
              | Some w =>
                  db_call UpdateConfirmed (fun db =>
                    (tt, mkDb (classes db)
                              (update_by_id (bk_id w) (set_confirmed (now env))
                                            (bookings db))
                              (seq db)))
              | None => ret tt
              end
            else ret tt) ;;
           ret (mkResponse 200 (Updated (hd_error updatedBooking)))
     end) db.

End Handlers.

(** The requests of the booking API, for replaying a history. *)
Inductive request : Type :=
| ReqCreate (env : Env) (req_user : object) (req_body : jsval)
| ReqCancel (env : Env) (req_user : object) (bookingId_param : string).

Definition handle (r : request) (db : Db) : response * Db :=
  match r with
  | ReqCreate env u b => create_booking env u b db
  | ReqCancel env u p => cancel_booking env u p db
  end.

Fixpoint replay (rs : list request) (db : Db) : list response * Db :=
  match rs with
  | [] => ([], db)
  | r :: rest =>
      let '(res, db1) := handle r db in
      let '(ress, db2) := replay rest db1 in
      (res :: ress, db2)
  end.

(** The body a client sends to book [classId]. *)
Definition book (classId : Z) : jsval := JObj [("classId", JNum classId)].

End Bookings.

(** ** Payment reconciliation: the webhook of [src/routes/payments.ts] *)

Module Payments.
Import Js.

(** The [status] enum of [payments] and [subscription_payments]. *)
Inductive payment_status : Type :=
| pending | approved | cancelled | refunded.

Definition status_eqb (a b : payment_status) : bool :=
  match a, b with
  | pending, pending | approved, approved
  | cancelled, cancelled | refunded, refunded => true
  | _, _ => false
  end.

(** The [status] enum of [subscriptions]. *)
Inductive subscription_status : Type :=
| active | sub_cancelled | expired | suspended | pending_payment.

(** [mapMercadoPagoStatus] (lines 412-424). *)
Definition mapMercadoPagoStatus (mpStatus : string) : payment_status :=
  if String.eqb mpStatus "approved" then approved
  else if String.eqb mpStatus "cancelled" then cancelled
  else if String.eqb mpStatus "rejected" then cancelled
  else if String.eqb mpStatus "refunded" then refunded
  else pending.

(** The [metadata] text column: JSON text of an object, or text that
    [JSON.parse] rejects.  [None] at [option metadata] is null or empty. *)
Inductive metadata : Type :=
| MetaObj (o : object)
| MetaInvalid.

Record Payment : Type := mkPayment {
  pay_id : Z;
  pay_userId : Z;
  pay_gymId : Z;
  pay_status : payment_status;
  pay_mercadopagoId : option string;
  pay_paymentDate : option Z;
  pay_updatedAt : Z;
  pay_metadata : option metadata
}.

Record SubscriptionPayment : Type := mkSubscriptionPayment {
  sp_id : Z;
  sp_subscriptionId : Z;
  sp_status : payment_status;
  sp_mercadopagoId : option string;
  sp_paidAt : option Z;
  sp_updatedAt : Z;
  sp_metadata : option metadata
}.

Record Subscription : Type := mkSubscription {
  sub_id : Z;
  sub_status : subscription_status;
  sub_updatedAt : Z
}.

Record Db : Type := mkDb {
  payments : list Payment;
  subscriptionPayments : list SubscriptionPayment;
  subscriptions : list Subscription
}.

(** The payment object the gateway returns.  [mp_date_approved] is the
    instant [new Date(date_approved)] denotes, in milliseconds, of a
    [date_approved] that is a date. *)
Record MpPayment : Type := mkMpPayment {
  mp_id : option jsval;
  mp_status : option string;
  mp_external_reference : option string;
  mp_date_approved : option Z;
  mp_status_detail : option jsval;
  mp_payment_method_id : option jsval;
  mp_payment_type_id : option jsval
}.

(** *** The environment of one webhook delivery *)

Inductive db_op : Type :=
| SelectSubscriptionPayments | SelectPayments
| UpdatePayments | UpdateSubscriptionPayments | UpdateSubscriptions.

Inductive gateway_result : Type :=
| GwThrows
| GwReturns (p : option MpPayment).

(** What the world answers during one delivery: the clock (in whole
    seconds, and as ISO text), the gateway's answer to [payment.findById],
    and which database calls reject. *)
Record Env : Type := mkEnv {
  now : Z;
  now_iso : string;
  findById : option jsval -> gateway_result;
  db_fails : db_op -> bool
}.

Inductive exn : Type :=
| GatewayError
| DbError (op : db_op)
| TypeError
| RangeError
| SyntaxError.

(** Console output, one constructor per logging call site. *)
Inductive log_entry : Type :=
| LogWebhookReceived
| WarnInvalidStructure
| LogUnhandledType
| ErrorWebhookProcessing (e : exn)
| LogProcessingPayment
| WarnNoExternalReference
| WarnPaymentNotInDatabase
| LogPaymentUpdated (from to : payment_status)
| LogPaymentUnchanged (st : payment_status)
| ErrorProcessingPayment (e : exn)
| LogProcessingSubscriptionPayment
| LogSubscriptionPaymentUpdated (from to : payment_status)
| LogSubscriptionPaymentUnchanged (st : payment_status)
| ErrorProcessingSubscriptionPayment (e : exn)
| LogActivatingSubscription (paymentId : Z)
| LogSubscriptionActivated (subscriptionId : Z)
| ErrorActivatingSubscription (e : exn)
| LogSubscriptionWebhook
| LogPreapprovalWebhook
| LogProcessingApprovedPayment
| ErrorHandlingApprovedPayment (e : exn).

Inductive body : Type :=
| ReceivedProcessed
| Error (msg : string).

Record response : Type := mkResponse {
  res_status : Z;
  res_json : body
}.

(** *** Async code with exceptions over the database

    A computation reads and writes the database, emits log lines, and
    either returns or throws; writes made before a throw stay. *)

Inductive outcome (A : Type) : Type :=
| Return (a : A)
| Throw (e : exn).
Arguments Return {A} a.
Arguments Throw {A} e.

Definition M (A : Type) : Type := Db -> outcome A * Db * list log_entry.

Definition ret {A} (a : A) : M A := fun db => (Return a, db, []).

Definition throw {A} (e : exn) : M A := fun db => (Throw e, db, []).

Definition bind {A B} (m : M A) (f : A -> M B) : M B :=
  fun db =>
    let '(o, db1, l1) := m db in
    match o with
    | Return a => let '(o2, db2, l2) := f a db1 in (o2, db2, l1 ++ l2)
    | Throw e => (Throw e, db1, l1)
    end.

Definition try_catch {A} (m : M A) (handler : exn -> M A) : M A :=
  fun db =>
    let '(o, db1, l1) := m db in
    match o with
    | Return a => (Return a, db1, l1)
    | Throw e => let '(o2, db2, l2) := handler e db1 in (o2, db2, l1 ++ l2)
    end.

Definition log (e : log_entry) : M unit := fun db => (Return tt, db, [e]).

Declare Scope async_scope.
Delimit Scope async_scope with async.
Notation "x <- m ;; k" := (bind m (fun x => k))
  (at level 61, m at next level, right associativity) : async_scope.
Notation "m ;; k" := (bind m (fun _ => k))
  (at level 61, right associativity) : async_scope.
Local Open Scope async_scope.

Section Handlers.

Variable env : Env.

(** One awaited database call. *)
Definition db_call {A} (op : db_op) (f : Db -> A * Db) : M A :=
  fun db =>
    if db_fails env op then (Throw (DbError op), db, [])
    else let '(a, db') := f db in (Return a, db', []).

(** [await mercadopago.payment.findById(paymentId)] *)
Definition gateway_findById (paymentId : option jsval)
  : M (option MpPayment) :=
  match findById env paymentId with
  | GwThrows => throw GatewayError
  | GwReturns p => ret p
  end.

(** [JSON.parse(row.metadata || '{}')] *)
Definition parse_metadata (m : option metadata) : M object :=
  match m with
  | None => ret []
  | Some (MetaObj o) => ret o
  | Some MetaInvalid => throw SyntaxError
  end.

(** [{...o, k: v}] as [JSON.stringify] keeps it: an undefined [v] drops
    the key. *)
Definition set_field (k : string) (v : option jsval) (o : object) : object :=
  let rest := filter (fun kv => negb (String.eqb (fst kv) k)) o in
  match v with
  | Some w => rest ++ [(k, w)]
  | None => rest
  end.

Definition str_field (s : option string) : option jsval :=
  match s with Some x => Some (JStr x) | None => None end.

(** The metadata object both update statements build. *)
Definition merged_metadata (o : object) (mp : MpPayment)
    (action : option jsval) : object :=
  set_field "last_webhook_date" (Some (JStr (now_iso env)))
    (set_field "last_webhook_action" action
      (set_field "payment_type_id" (mp_payment_type_id mp)
        (set_field "payment_method_id" (mp_payment_method_id mp)
          (set_field "mercadopago_status_detail" (mp_status_detail mp)
            (set_field "mercadopago_status" (str_field (mp_status mp)) o))))).

Definition activate (s : Subscription) : Subscription :=
  mkSubscription (sub_id s) active (now env).

Definition activate_where (subscriptionId : Z) (rows : list Subscription)
  : list Subscription :=
  map (fun s => if sub_id s =? subscriptionId then activate s else s) rows.

(** [handleSubscriptionPaymentApproved] (lines 263-285). *)
Definition handleSubscriptionPaymentApproved (subscriptionPayment : SubscriptionPayment)
  : M unit :=
  try_catch
    (log (LogActivatingSubscription (sp_id subscriptionPayment)) ;;
     db_call UpdateSubscriptions (fun db =>
       (tt, mkDb (payments db) (subscriptionPayments db)
                 (activate_where (sp_subscriptionId subscriptionPayment)
                                 (subscriptions db)))) ;;
     log (LogSubscriptionActivated (sp_subscriptionId subscriptionPayment)))
    (fun e => log (ErrorActivatingSubscription e)).

(** [handlePaymentApproved] (lines 300-316): only logs. *)
Definition handlePaymentApproved (payment : Payment) : M unit :=
  try_catch (log LogProcessingApprovedPayment)
            (fun e => log (ErrorHandlingApprovedPayment e)).

(** Building the text of a log line that interpolates [vs] in a template
    literal: a value that is not printable throws. *)
Definition interpolate (vs : list (option jsval)) : M unit :=
  if forallb renders vs then ret tt else throw TypeError.

(** [processSubscriptionWebhook], [processPreapprovalWebhook] (lines
    288-297): one log line each. *)
Definition processSubscriptionWebhook (subscriptionId : option jsval)
    (action : option jsval) : M unit :=
  interpolate [subscriptionId; action] ;;
  log LogSubscriptionWebhook.

Definition processPreapprovalWebhook (preapprovalId : option jsval)
    (action : option jsval) : M unit :=
  interpolate [preapprovalId; action] ;;
  log LogPreapprovalWebhook.

Definition js_toString (v : option jsval) : M string :=
  match toString v with
  | Some s => ret s
  | None => throw TypeError
  end.

(** A value given to a column declared [integer(..., { mode: 'timestamp' })]. *)
Inductive timestamp_value : Type :=
| TsNull
| TsDate (ms : Z)
| TsNumber (n : Z).

(** What the driver stores for it: it calls [getTime()] on the value and
    keeps whole seconds; null passes; a number has no [getTime] and the
    statement throws a TypeError before it reaches the database. *)
Definition to_timestamp_column (v : timestamp_value) : M (option Z) :=
  match v with
  | TsNull => ret None
  | TsDate ms => ret (Some (ms / 1000))
  | TsNumber _ => throw TypeError
  end.

(** [mpPayment.date_approved ?
      Math.floor(new Date(mpPayment.date_approved).getTime() / 1000) : null]
    (line 232). *)
Definition paidAt_value (mp : MpPayment) : timestamp_value :=
  match mp_date_approved mp with
  | Some ms => TsNumber (ms / 1000)
  | None => TsNull
  end.

(** [mpPayment.date_approved ? new Date(mpPayment.date_approved) : null]
    (line 191). *)
Definition paymentDate_value (mp : MpPayment) : timestamp_value :=
  match mp_date_approved mp with
  | Some ms => TsDate ms
  | None => TsNull
  end.

Definition update_subscriptionPayment (sp : SubscriptionPayment)
    (newStatus : payment_status) (mpid : string) (paidAt : option Z)
    (meta : object) : SubscriptionPayment :=
  mkSubscriptionPayment (sp_id sp) (sp_subscriptionId sp) newStatus (Some mpid)
    paidAt (now env) (Some (MetaObj meta)).

(** [processSubscriptionPaymentWebhook] (lines 222-260). *)
Definition processSubscriptionPaymentWebhook (subscriptionPayment : SubscriptionPayment)
    (newStatus : payment_status) (mpPayment : MpPayment)
    (action : option jsval) : M unit :=
  try_catch
    (log LogProcessingSubscriptionPayment ;;
     if negb (status_eqb (sp_status subscriptionPayment) newStatus) then
       mpid <- js_toString (mp_id mpPayment) ;;
       o <- parse_metadata (sp_metadata subscriptionPayment) ;;
       paidAt <- to_timestamp_column (paidAt_value mpPayment) ;;
       db_call UpdateSubscriptionPayments (fun db =>
         (tt, mkDb (payments db)
                (map (fun r =>
                        if sp_id r =? sp_id subscriptionPayment
                        then update_subscriptionPayment r newStatus mpid paidAt
                               (merged_metadata o mpPayment action)
                        else r)
                     (subscriptionPayments db))
                (subscriptions db))) ;;
       log (LogSubscriptionPaymentUpdated (sp_status subscriptionPayment) newStatus) ;;
       if status_eqb newStatus approved
          && negb (status_eqb (sp_status subscriptionPayment) approved)
       then handleSubscriptionPaymentApproved subscriptionPayment
       else ret tt
     else log (LogSubscriptionPaymentUnchanged newStatus))
    (fun e => log (ErrorProcessingSubscriptionPayment e) ;; throw e).

Definition update_payment (p : Payment) (newStatus : payment_status)
    (mpid : string) (paymentDate : option Z) (meta : object) : Payment :=
  mkPayment (pay_id p) (pay_userId p) (pay_gymId p) newStatus (Some mpid)
    paymentDate (now env) (Some (MetaObj meta)).

(** The row that [eq(table.id, parseInt(externalReference))] with
    [.limit(1)] selects, and the rows an update with that condition
    rewrites.  The statements bind the number first ([select_by_ref],
    [bind_ref]) and throw when there is none, so no statement runs with a
    reference that is not a number: what is given here for such a
    reference is never the answer of the database. *)
Definition find_by_ref {R} (rid : R -> Z) (externalReference : string)
    (rows : list R) : option R :=
  match parseInt externalReference with
  | Some n => find (fun r => rid r =? n) rows
  | None => None
  end.

Definition update_by_ref {R} (rid : R -> Z) (externalReference : string)
    (f : R -> R) (rows : list R) : list R :=
  match parseInt externalReference with
  | Some n => map (fun r => if rid r =? n then f r else r) rows
  | None => rows
  end.

(** [parseInt(externalReference)] bound as a parameter: the client refuses
    NaN with a RangeError. *)
Definition bind_ref (externalReference : string) : M Z :=
  match parseInt externalReference with
  | Some n => ret n
  | None => throw RangeError
  end.

(** [await db.select().from(table)
       .where(eq(table.id, parseInt(externalReference))).limit(1)] *)
Definition select_by_ref {R} (op : db_op) (rid : R -> Z)
    (externalReference : string) (table : Db -> list R) : M (option R) :=
  bind_ref externalReference ;;
  db_call op (fun db => (find_by_ref rid externalReference (table db), db)).

(** [mpPayment.status || 'pending'] *)
Definition status_or_pending (mp : MpPayment) : string :=
  match mp_status mp with
  | Some s => if String.eqb s "" then "pending" else s
  | None => "pending"
  end.

(** [processPaymentWebhook] (lines 146-219).  Its first log line prints
    [paymentId] and [action] in a template literal, the one of its [catch]
    prints [paymentId]. *)
Definition processPaymentWebhook (paymentId : option jsval)
    (action : option jsval) : M unit :=
  try_catch
    (interpolate [paymentId; action] ;;
     log LogProcessingPayment ;;
     mpPayment <- gateway_findById paymentId ;;
     match mpPayment with
     | None => log WarnNoExternalReference
     | Some mp =>
         if negb (truthy (str_field (mp_external_reference mp))) then
           log WarnNoExternalReference
         else
           let externalReference :=
             match mp_external_reference mp with Some r => r | None => "" end in
           let newStatus := mapMercadoPagoStatus (status_or_pending mp) in
           existingSubscriptionPayment <-
             select_by_ref SelectSubscriptionPayments sp_id externalReference
                           subscriptionPayments ;;
           match existingSubscriptionPayment with
           | Some sp => processSubscriptionPaymentWebhook sp newStatus mp action
           | None =>
               existingPayment <-
                 select_by_ref SelectPayments pay_id externalReference
                               payments ;;
               match existingPayment with
               | None => log WarnPaymentNotInDatabase
               | Some currentPayment =>
                   if negb (status_eqb (pay_status currentPayment) newStatus) then
                     mpid <- js_toString paymentId ;;
                     o <- parse_metadata (pay_metadata currentPayment) ;;
                     paymentDate <- to_timestamp_column (paymentDate_value mp) ;;
                     bind_ref externalReference ;;
                     db_call UpdatePayments (fun db =>
                       (tt, mkDb
                              (update_by_ref pay_id externalReference
                                 (fun r => update_payment r newStatus mpid
                                             paymentDate
                                             (merged_metadata o mp action))
                                 (payments db))
                              (subscriptionPayments db)
                              (subscriptions db))) ;;
                     log (LogPaymentUpdated (pay_status currentPayment) newStatus) ;;
                     if status_eqb newStatus approved
                        && negb (status_eqb (pay_status currentPayment) approved)
                     then handlePaymentApproved currentPayment
                     else ret tt
                   else log (LogPaymentUnchanged newStatus)
               end
           end
     end)
    (fun e =>
       interpolate [paymentId] ;;
       log (ErrorProcessingPayment e) ;;
       throw e).

(** [req.body] is the object [express.json()] parsed ([{}] when the
    request carries none). *)
Definition data_id (req_body : object) : option jsval :=
  match get "data" req_body with
  | Some d => prop "id" d
  | None => None
  end.

(** The envelope check of the handler (line 114). *)
Definition valid_structure (req_body : object) : bool :=
  truthy (get "type" req_body)
  && truthy (get "data" req_body)
  && truthy (data_id req_body).

(** The [switch (type)] of the handler (lines 120-135); the default case
    prints the type in a template literal. *)
Definition dispatch (req_body : object) : M unit :=
  let type := get "type" req_body in
  let action := get "action" req_body in
  if is_str "payment" type then
    processPaymentWebhook (data_id req_body) action
  else if is_str "subscription" type then
    processSubscriptionWebhook (data_id req_body) action
  else if is_str "preapproval" type then
    processPreapprovalWebhook (data_id req_body) action
  else
    interpolate [type] ;;
    log LogUnhandledType.

(** [POST /webhook] (lines 99-143).  The first log line hands the parts
    of the envelope to [console.log] as an object, which prints any value. *)
Definition webhook (req_body : object) : M response :=
  try_catch
    (log LogWebhookReceived ;;
     if negb (valid_structure req_body) then
       log WarnInvalidStructure ;;
       ret (mkResponse 400 (Error "Invalid webhook structure"))
     else
       dispatch req_body ;;
       ret (mkResponse 200 ReceivedProcessed))
    (fun e =>
       log (ErrorWebhookProcessing e) ;;
       ret (mkResponse 500 (Error "Webhook processing failed"))).

End Handlers.

End Payments.

(** ** Vocabulary of the statements *)

Module BookingSpec.
Import Js Bookings.

(** Successive booking requests for one class, one per caller. *)
Definition creates (env : Env) (classId : Z) (who : list object)
  : list request :=
  map (fun u => ReqCreate env u (book classId)) who.

(** A reservation that still occupies or awaits a seat. *)
Definition non_cancelled (b : Booking) : bool :=
  negb (status_eqb (bk_status b) cancelled).

Definition held_by (userId classId : Z) (db : Db) : list Booking :=
  filter (fun b => (bk_userId b =? userId) && (bk_classId b =? classId)
                   && non_cancelled b)
         (bookings db).

Definition waitlisted_of (classId : Z) (rows : list Booking) : list Booking :=
  filter (fun b => (bk_classId b =? classId) && status_eqb (bk_status b) waitlist)
         rows.

(** The answers of the three handlers to a thrown exception. *)
Definition create_failed : response :=
  mkResponse 500 (Error "Failed to create booking").

Definition cancel_failed : response :=
  mkResponse 500 (Error "Failed to cancel booking").

Definition list_failed : response :=
  mkResponse 500 (Error "Failed to get bookings").

(** The answer the create handler has for a second booking. *)
Definition conflict : response :=
  mkResponse 400 (Error "You already have a booking for this class").

(** Every database call goes through; the clock reads 400. *)
Definition no_faults : Env := mkEnv 400 (fun _ => false).

(** Three users of gym 1, as [authenticateToken] presents them. *)
Definition user_10 : object := req_user_of_user 10 1 "u10@example.com".
Definition user_20 : object := req_user_of_user 20 1 "u20@example.com".
Definition user_30 : object := req_user_of_user 30 1 "u30@example.com".

(** A class of capacity 2 and nobody booked. *)
Definition two_seats : Db := mkDb [mkClass 1 2 true] [] 0.

(** A class of capacity 1 whose seat is taken by user 10, with users 20
    and 30 waiting; row 2 was stamped after row 3. *)
Definition full_class : Db :=
  mkDb [mkClass 1 1 true]
       [mkBooking 1 1 10 1 confirmed None 100 None 100;
        mkBooking 2 1 20 1 waitlist None 300 None 300;
        mkBooking 3 1 30 1 waitlist None 200 None 200]
       3.

End BookingSpec.

Module PaymentSpec.
Import Js Payments.

(** The record a delivery resolves to, read off the gateway's answer and
    the tables: its stored status and the status the gateway's maps to.
    A subscription payment takes precedence over a one-off payment. *)
Definition resolved_status (env : Env) (req_body : object) (db : Db)
  : option (payment_status * payment_status) :=
  if valid_structure req_body && is_str "payment" (get "type" req_body) then
    match findById env (data_id req_body) with
    | GwReturns (Some mp) =>
        match mp_external_reference mp with
        | Some ref =>
            if String.eqb ref "" then None
            else
              let newStatus := mapMercadoPagoStatus (status_or_pending mp) in
              match find_by_ref sp_id ref (subscriptionPayments db) with
              | Some sp => Some (sp_status sp, newStatus)
              | None =>
                  match find_by_ref pay_id ref (payments db) with
                  | Some p => Some (pay_status p, newStatus)
                  | None => None
                  end
              end
        | None => None
        end
    | _ => None
    end
  else None.

(** The approval edge of a delivery: the subscription payment it resolves
    to, when its stored status is not Approved and the gateway's status
    maps to Approved. *)
Definition approval_edge (env : Env) (req_body : object) (db : Db)
  : option (SubscriptionPayment * MpPayment) :=
  if valid_structure req_body && is_str "payment" (get "type" req_body) then
    match findById env (data_id req_body) with
    | GwReturns (Some mp) =>
        match mp_external_reference mp with
        | Some ref =>
            if String.eqb ref "" then None
            else
              match find_by_ref sp_id ref (subscriptionPayments db) with
              | Some sp =>
                  if status_eqb (mapMercadoPagoStatus (status_or_pending mp)) approved
                     && negb (status_eqb (sp_status sp) approved)
                  then Some (sp, mp) else None
              | None => None
              end
        | None => None
        end
    | _ => None
    end
  else None.

(** Log lines that only the approval side effects print. *)
Definition approval_entry (e : log_entry) : bool :=
  match e with
  | LogActivatingSubscription _ | LogSubscriptionActivated _
  | ErrorActivatingSubscription _
  | LogProcessingApprovedPayment | ErrorHandlingApprovedPayment _ => true
  | _ => false
  end.

(** Log lines that follow a write to a payment record. *)
Definition update_entry (e : log_entry) : bool :=
  match e with
  | LogPaymentUpdated _ _ | LogSubscriptionPaymentUpdated _ _ => true
  | _ => false
  end.

(** What a delivery may do to a stored subscription: the subscription
    [subscriptionId] becomes Active, every other one is left as it was. *)
Definition activated_only (subscriptionId : Z) (old new : Subscription) : Prop :=
  if sub_id old =? subscriptionId then
    sub_status new = active /\ sub_id new = sub_id old
  else new = old.

(** What a delivery may do to a stored subscription payment: the payment
    [paymentId] becomes Approved and keeps its subscription, every other
    one is left as it was. *)
Definition approved_only (paymentId : Z) (old new : SubscriptionPayment) : Prop :=
  if sp_id old =? paymentId then
    sp_status new = approved /\ sp_id new = sp_id old
    /\ sp_subscriptionId new = sp_subscriptionId old
  else new = old.

Definition response_of {A} (r : outcome A * Db * list log_entry) : outcome A :=
  fst (fst r).

Definition db_of {A} (r : outcome A * Db * list log_entry) : Db :=
  snd (fst r).

Definition logs_of {A} (r : outcome A * Db * list log_entry) : list log_entry :=
  snd r.

(** The envelope of the specification's scenario. *)
Definition payment_555 : object :=
  [("type", JStr "payment"); ("data", JObj [("id", JStr "555")]);
   ("action", JStr "payment.updated")].

Definition approved_42 : MpPayment :=
  mkMpPayment (Some (JNum 555)) (Some "approved") (Some "42") (Some 1700000000000)
              (Some (JStr "accredited")) (Some (JStr "visa"))
              (Some (JStr "credit_card")).

(** The same payment, reported approved without an approval date. *)
Definition approved_42_undated : MpPayment :=
  mkMpPayment (Some (JNum 555)) (Some "approved") (Some "42") None
              (Some (JStr "accredited")) (Some (JStr "visa"))
              (Some (JStr "credit_card")).

(** Subscription payment 42 of subscription 7, both awaiting payment. *)
Definition awaiting_payment : Db :=
  mkDb []
       [mkSubscriptionPayment 42 7 pending None None 0 None]
       [mkSubscription 7 pending_payment 0].

Definition no_faults (op : db_op) : bool := false.

(** The gateway reports payment 555 approved; every database call works. *)
Definition gateway_approves : Env :=
  mkEnv 1000 "2024-01-01T00:00:00.000Z" (fun _ => GwReturns (Some approved_42))
        no_faults.

(** The gateway reports payment 555 approved, with no approval date;
    every database call works. *)
Definition gateway_approves_undated : Env :=
  mkEnv 1000 "2024-01-01T00:00:00.000Z"
        (fun _ => GwReturns (Some approved_42_undated)) no_faults.

(** The gateway cannot be reached. *)
Definition gateway_down : Env :=
  mkEnv 1000 "2024-01-01T00:00:00.000Z" (fun _ => GwThrows) no_faults.

(** The gateway reports payment 555 approved, with no approval date; the
    write to [subscriptions] is rejected. *)
Definition activation_fails : Env :=
  mkEnv 1000 "2024-01-01T00:00:00.000Z"
        (fun _ => GwReturns (Some approved_42_undated))
        (fun op => match op with UpdateSubscriptions => true | _ => false end).

(** The same, with every database call working one minute later. *)
Definition activation_retried : Env :=
  mkEnv 1060 "2024-01-01T00:01:00.000Z"
        (fun _ => GwReturns (Some approved_42_undated)) no_faults.

(** The same world one minute later: same gateway answers, same faults. *)
Definition later (env : Env) : Env :=
  mkEnv (now env + 60) "2024-01-01T00:01:00.000Z" (findById env) (db_fails env).

End PaymentSpec.

(** ** Vocabulary of the further reconciliation properties *)

Module PaymentInv.
Import Js Payments PaymentSpec.

(** The six keys a webhook writes into a record's metadata. *)
Definition webhook_keys : list string :=
  ["mercadopago_status"; "mercadopago_status_detail"; "payment_method_id";
   "payment_type_id"; "last_webhook_action"; "last_webhook_date"].

(** What a delivery may do to a stored one-off payment: the payment
    [paymentId] takes the mapped status, the gateway's payment id, the
    date [date] and the time of the update; every other one is left as it
    was. *)
Definition settled_only (paymentId : Z) (st : payment_status)
    (mpid : string) (date : option Z) (at_ : Z) (old new : Payment) : Prop :=
  if pay_id old =? paymentId then
    pay_status new = st /\ pay_mercadopagoId new = Some mpid
    /\ pay_paymentDate new = date /\ pay_updatedAt new = at_
    /\ pay_id new = pay_id old /\ pay_userId new = pay_userId old
    /\ pay_gymId new = pay_gymId old
  else new = old.

(** The identity columns of the three tables. *)
Definition keys (db : Db) : list (Z * Z * Z) * list (Z * Z) * list Z :=
  (map (fun p => (pay_id p, pay_userId p, pay_gymId p)) (payments db),
   map (fun s => (sp_id s, sp_subscriptionId s)) (subscriptionPayments db),
   map sub_id (subscriptions db)).

(** The values that the first log line of a dispatched delivery prints in
    a template literal: the id and the action for the three known types,
    the type itself for any other. *)
Definition first_log_line (req_body : object) : list (option jsval) :=
  let type := get "type" req_body in
  if is_str "payment" type || is_str "subscription" type
     || is_str "preapproval" type
  then [data_id req_body; get "action" req_body]
  else [type].

(** An envelope whose type is an object that hides [toString]. *)
Definition unprintable_type : object :=
  [("type", JObj [("toString", JNum 0)]); ("data", JObj [("id", JNum 1)])].

(** One-off payment 17, pending, with a metadata key of its own. *)
Definition one_off_17 : Db :=
  mkDb [mkPayment 17 3 1 pending None None 0 (Some (MetaObj [("plan", JStr "monthly")]))]
       [] [].

(** The gateway reports payment 555 approved for reference 17. *)
Definition approved_17 : MpPayment :=
  mkMpPayment (Some (JNum 555)) (Some "approved") (Some "17") (Some 1700000000000)
              None None None.

Definition gateway_approves_17 : Env :=
  mkEnv 1000 "2024-01-01T00:00:00.000Z" (fun _ => GwReturns (Some approved_17))
        no_faults.

(** Subscription payment 42 whose metadata text is not JSON. *)
Definition broken_metadata : Db :=
  mkDb []
       [mkSubscriptionPayment 42 7 pending None None 0 (Some MetaInvalid)]
       [mkSubscription 7 pending_payment 0].

(** One-off payment 17, already approved and stamped at 900. *)
Definition approved_payment_17 : Db :=
  mkDb [mkPayment 17 3 1 approved (Some "555") (Some 1700000000) 900 None]
       [] [].

(** One-off payments 17 and 42 next to subscription payment 42 of
    subscription 7, all awaiting payment. *)
Definition shared_id_42 : Db :=
  mkDb [mkPayment 17 3 1 pending None None 0 None;
        mkPayment 42 4 1 pending None None 0 None]
       [mkSubscriptionPayment 42 7 pending None None 0 None]
       [mkSubscription 7 pending_payment 0].

(** The approval date of [approved_17], in whole seconds. *)
Definition approved_17_seconds : Z := 1700000000.

End PaymentInv.

(** ** The webhook of the second copy of [src/routes/payments.ts]

    The file holds a second router (lines 426-679) written against the
    gateway's newer client.  Its webhook (lines 530-569) knows one-off
    payments only, has no status comparison, and wraps the gateway call
    and the update in a [try] of their own. *)

Module PaymentsSdk2.
Import Js Payments.

Inductive log_entry : Type :=
| LogWebhookReceived
| LogPaymentUpdated (externalReference : string) (st : payment_status)
| ErrorFetchingPayment (e : exn)
| ErrorWebhook (e : exn).

Inductive body : Type :=
| Received
| Error (msg : string).

Record response : Type := mkResponse {
  res_status : Z;
  res_json : body
}.

(** [.set({ status, mercadopagoId, updatedAt })]: the other columns stay. *)
Definition update_payment (now : Z) (p : Payment) (st : payment_status)
    (mpid : string) : Payment :=
  mkPayment (pay_id p) (pay_userId p) (pay_gymId p) st (Some mpid)
            (pay_paymentDate p) now (pay_metadata p).

(** [POST /webhook] (lines 530-569).  [data.id] is read before the inner
    [try]: a null or absent [data] throws to the outer [catch].  Inside
    the inner [try], the id that cannot be printed, the reference that is
    not a number and the rejected update all end in its [catch]. *)
Definition webhook (env : Env) (req_body : object) (db : Db)
  : response * Db * list log_entry :=
  let type := get "type" req_body in
  let data := get "data" req_body in
  if is_str "payment" type then
    match data with
    | None | Some JNull =>
        (mkResponse 500 (Error "Webhook processing failed"), db,
         [LogWebhookReceived; ErrorWebhook TypeError])
    | Some d =>
        let paymentId := prop "id" d in
        match findById env paymentId with
        | GwThrows =>
            (mkResponse 200 Received, db,
             [LogWebhookReceived; ErrorFetchingPayment GatewayError])
        | GwReturns None => (mkResponse 200 Received, db, [LogWebhookReceived])
        | GwReturns (Some mpPayment) =>
            if truthy (str_field (mp_external_reference mpPayment)) then
              let externalReference :=
                match mp_external_reference mpPayment with
                | Some r => r
                | None => ""
                end in
              let status := mapMercadoPagoStatus (status_or_pending mpPayment) in
              match toString paymentId with
              | None =>
                  (mkResponse 200 Received, db,
                   [LogWebhookReceived; ErrorFetchingPayment TypeError])
              | Some mpid =>
                  match parseInt externalReference with
                  | None =>
                      (mkResponse 200 Received, db,
                       [LogWebhookReceived; ErrorFetchingPayment RangeError])
                  | Some _ =>
                      if db_fails env UpdatePayments then
                        (mkResponse 200 Received, db,
                         [LogWebhookReceived;
                          ErrorFetchingPayment (DbError UpdatePayments)])
                      else
                        (mkResponse 200 Received,
                         mkDb (update_by_ref pay_id externalReference
                                 (fun r => update_payment (now env) r status mpid)
                                 (payments db))
                              (subscriptionPayments db) (subscriptions db),
                         [LogWebhookReceived;
                          LogPaymentUpdated externalReference status])
                  end
              end
            else (mkResponse 200 Received, db, [LogWebhookReceived])
        end
    end
  else (mkResponse 200 Received, db, [LogWebhookReceived]).

(** What this webhook may do to a stored payment. *)
Definition restamped_only (paymentId : Z) (st : payment_status)
    (mpid : string) (at_ : Z) (old new : Payment) : Prop :=
  if pay_id old =? paymentId then
    new = mkPayment (pay_id old) (pay_userId old) (pay_gymId old) st (Some mpid)
                    (pay_paymentDate old) at_ (pay_metadata old)
  else new = old.

End PaymentsSdk2.

(** ** Reading one payment: [GET /:paymentId] of [src/routes/payments.ts] *)

Module PaymentAccess.
Import Js Payments.

(** [req.user] as [authenticateToken] leaves it: an end user of a gym or
    the owner of gyms. *)
Inductive AuthUser : Type :=
| GymUser (userId gymId : Z)
| GymOwner (ownerId : Z).

(** A row of [gyms]. *)
Record Gym : Type := mkGym {
  gym_id : Z;
  gym_ownerId : Z
}.

(** The two awaited selects of the handler. *)
Inductive db_op : Type :=
| SelectPayment | SelectGyms.

Inductive body : Type :=
| PaymentBody (payment : Payment)
| Error (msg : string).

Record response : Type := mkResponse {
  res_status : Z;
  res_json : body
}.

(** [gymIds.includes(x)] *)
Definition includes (ids : list Z) (x : Z) : bool :=
  existsb (fun i => i =? x) ids.

(** The answer of the handler's [catch]. *)
Definition failed : response := mkResponse 500 (Error "Failed to get payment").

(** [GET /:paymentId] (lines 373-409).  [db_fails] says which selects are
    rejected; a [req_user] of [None] is a request whose [req.user] is not
    set.  A path segment that is not a number makes the first select
    throw: NaN cannot be bound. *)
Definition get_payment (db_fails : db_op -> bool) (req_user : option AuthUser)
    (paymentId_param : string) (pays : list Payment) (gyms : list Gym)
  : response :=
  match parseInt paymentId_param with
  | None => failed
  | Some paymentId =>
      if db_fails SelectPayment then failed
      else
        match find (fun p => pay_id p =? paymentId) pays with
        | None => mkResponse 404 (Error "Payment not found")
        | Some p =>
            match req_user with
            | Some (GymUser userId _) =>
                if negb (pay_userId p =? userId) then
                  mkResponse 403 (Error "Access denied to this payment")
                else mkResponse 200 (PaymentBody p)
            | Some (GymOwner ownerId) =>
                if db_fails SelectGyms then failed
                else
                  let ownerGyms :=
                    filter (fun g => gym_ownerId g =? ownerId) gyms in
                  let gymIds := map gym_id ownerGyms in
                  if negb (includes gymIds (pay_gymId p)) then
                    mkResponse 403 (Error "Access denied to this payment")
                  else mkResponse 200 (PaymentBody p)
            | None => mkResponse 403 (Error "Access denied")
            end
        end
  end.

(** Who may read a payment. *)
Definition may_read (u : AuthUser) (p : Payment) (gyms : list Gym) : Prop :=
  match u with
  | GymUser userId _ => pay_userId p = userId
  | GymOwner ownerId =>
      exists g, In g gyms /\ gym_ownerId g = ownerId /\ gym_id g = pay_gymId p
  end.

(** The selects the handler runs for a caller are not rejected. *)
Definition reads_succeed (db_fails : db_op -> bool) (u : AuthUser) : Prop :=
  db_fails SelectPayment = false
  /\ match u with
     | GymUser _ _ => True
     | GymOwner _ => db_fails SelectGyms = false
     end.

(** Every select goes through. *)
Definition no_faults (op : db_op) : bool := false.

End PaymentAccess.

(** ** Booking admission *)

Section BookingFacts.
Import Js Bookings BookingSpec.

Lemma status_eqb_spec (a b : booking_status) :
  status_eqb a b = true <-> a = b.
Proof. destruct a, b; simpl; split; intro H; try reflexivity; discriminate. Qed.

(** *** The caller's id *)

(** Neither object that [authenticateToken] builds has a property [id]:
    [req.user!.id] is [undefined]. *)
Lemma authenticated_has_no_id req_user :
  authenticated req_user -> get "id" req_user = None.
Proof. intros [userId gymId email | ownerId email]; reflexivity. Qed.

Ltac open_booking_handlers :=
  unfold create_booking, cancel_booking, my_bookings, respond, insert_booking,
    bind_param, bind_number, db_call, bind, ret, throw.

(** *** One creation *)

(** The create handler for a caller without [id]: the duplicate check
    cannot be run. *)
Lemma create_booking_without_id env req_user req_body db :
  get "id" req_user = None ->
  create_booking env req_user req_body db
  = match createBookingSchema_parse req_body with
    | None => (mkResponse 400 ZodIssues, db)
    | Some (classId, _) =>
        if db_fails env SelectClass then (create_failed, db)
        else
          match select_class classId db with
          | None => (mkResponse 404 (Error "Class not found or inactive"), db)
          | Some c =>
              if cl_isActive c then (create_failed, db)
              else (mkResponse 404 (Error "Class not found or inactive"), db)
          end
    end.
Proof.
  intro Hid. open_booking_handlers. rewrite Hid.
  destruct (createBookingSchema_parse req_body) as [[classId notes]|];
    [|reflexivity].
  destruct (db_fails env SelectClass); [reflexivity|].
  destruct (select_class classId db) as [c|]; [|reflexivity].
  destruct (cl_isActive c); reflexivity.
Qed.

(** The insert of the create handler names no gym: whoever calls, nothing
    is stored and 201 is never answered. *)
Lemma create_booking_stores_nothing env req_user req_body db :
  snd (create_booking env req_user req_body db) = db
  /\ res_status (fst (create_booking env req_user req_body db)) <> 201.
Proof.
  open_booking_handlers.
  destruct (createBookingSchema_parse req_body) as [[classId notes]|];
    [|split; [reflexivity | discriminate]].
  destruct (db_fails env SelectClass); [split; [reflexivity | discriminate]|].
  destruct (select_class classId db) as [c|];
    [|split; [reflexivity | discriminate]].
  destruct (cl_isActive c); [|split; [reflexivity | discriminate]].
  cbn [negb].
  destruct (get "id" req_user) as [[| q | n | s | l | o]|];
    try (split; [reflexivity | discriminate]).
  destruct (db_fails env SelectExistingBooking);
    [split; [reflexivity | discriminate]|].
  destruct (0 <? Z.of_nat (List.length (existingBooking n classId db)));
    [split; [reflexivity | discriminate]|].
  destruct (db_fails env CountBookings); split; (reflexivity || discriminate).
Qed.

(** *** One cancellation, one listing *)

Lemma cancel_booking_without_id env req_user param db :
  get "id" req_user = None ->
  cancel_booking env req_user param db = (cancel_failed, db).
Proof.
  intro Hid. open_booking_handlers. rewrite Hid.
  destruct (parseInt param); reflexivity.
Qed.

Lemma my_bookings_without_id env req_user status db :
  get "id" req_user = None ->
  my_bookings env req_user status db = (list_failed, db).
Proof. intro Hid. open_booking_handlers. rewrite Hid. reflexivity. Qed.

(** C3: what the code does where the claim expects the first C of N
    bookings to be confirmed and the others to be put on the waiting list.
    For callers authenticated by [authenticateToken] and an existing,
    active class, each of N successive create requests is answered 500
    'Failed to create booking' and nothing is stored: [req.user.id] is
    [undefined] and the duplicate check that binds it throws before the
    capacity is looked at. *)
Theorem create_answers_500_and_stores_nothing env who classId c db :
  Forall authenticated who ->
  db_fails env SelectClass = false ->
  select_class classId db = Some c ->
  cl_isActive c = true ->
  replay (creates env classId who) db
  = (map (fun _ => create_failed) who, db).
Proof.
  intros Hwho Hf Hc Hact.
  induction Hwho as [|u l Hu _ IH]; [reflexivity|].
  cbn [creates map replay handle]. fold (creates env classId l).
  rewrite (create_booking_without_id env u (book classId) db
             (authenticated_has_no_id u Hu)).
  cbn [book createBookingSchema_parse get String.eqb Ascii.eqb Bool.eqb].
  rewrite Hf, Hc, Hact. rewrite IH. reflexivity.
Qed.

Lemma create_answers_500_and_stores_nothing_witness :
  replay (creates no_faults 1 [user_10; user_20; user_30]) two_seats
  = ([create_failed; create_failed; create_failed], two_seats).
Proof.
  apply (create_answers_500_and_stores_nothing no_faults
           [user_10; user_20; user_30] 1 (mkClass 1 2 true) two_seats).
  - repeat constructor.
  - reflexivity.
  - reflexivity.
  - reflexivity.
Defined.

(** C1: what the code does where the claim expects the conflict answer.
    A user who holds a reservation that is not cancelled for an existing,
    active class and asks for another one is answered 500 'Failed to
    create booking', not 400 'You already have a booking for this class';
    no row is inserted. *)
Theorem create_answers_500_to_a_second_booking
    env userId gymId email req_body classId notes c db :
  createBookingSchema_parse req_body = Some (classId, notes) ->
  db_fails env SelectClass = false ->
  select_class classId db = Some c ->
  cl_isActive c = true ->
  held_by userId classId db <> [] ->
  create_booking env (req_user_of_user userId gymId email) req_body db
  = (create_failed, db)
  /\ create_failed <> conflict.
Proof.
  intros Hparse Hf Hc Hact _. split; [|discriminate].
  rewrite create_booking_without_id by reflexivity.
  rewrite Hparse, Hf, Hc, Hact. reflexivity.
Qed.

Lemma create_answers_500_to_a_second_booking_witness :
  held_by 20 1 full_class = [mkBooking 2 1 20 1 waitlist None 300 None 300]
  /\ held_by 10 1 full_class = [mkBooking 1 1 10 1 confirmed None 100 None 100]
  /\ create_booking no_faults user_20 (book 1) full_class
     = (create_failed, full_class)
  /\ create_booking no_faults user_10 (book 1) full_class
     = (create_failed, full_class).
Proof.
  split; [reflexivity|]. split; [reflexivity|]. split.
  - apply (create_answers_500_to_a_second_booking no_faults 20 1
             "u20@example.com" (book 1) 1 None (mkClass 1 1 true) full_class);
      try reflexivity; discriminate.
  - apply (create_answers_500_to_a_second_booking no_faults 10 1
             "u10@example.com" (book 1) 1 None (mkClass 1 1 true) full_class);
      try reflexivity; discriminate.
Defined.

(** C2: what the code does where the claim expects the earliest waiting
    reservation to be promoted.  The holder of a Confirmed reservation who
    cancels it is answered 500 'Failed to cancel booking'; the reservation
    stays Confirmed and the waiting list of its class is as before:
    nobody is promoted. *)
Theorem cancel_answers_500_and_promotes_nobody env userId gymId email db b :
  In b (bookings db) ->
  bk_userId b = userId ->
  bk_status b = confirmed ->
  let r := cancel_booking env (req_user_of_user userId gymId email)
                          (string_of_Z (bk_id b)) db in
  fst r = cancel_failed
  /\ In b (bookings (snd r))
  /\ waitlisted_of (bk_classId b) (bookings (snd r))
     = waitlisted_of (bk_classId b) (bookings db).
Proof.
  intros Hin _ _ r. subst r.
  rewrite cancel_booking_without_id by reflexivity.
  cbn [fst snd]. repeat split. exact Hin.
Qed.

Lemma cancel_answers_500_and_promotes_nobody_witness :
  fst (cancel_booking no_faults user_10 "1" full_class) = cancel_failed
  /\ In (mkBooking 1 1 10 1 confirmed None 100 None 100)
        (bookings (snd (cancel_booking no_faults user_10 "1" full_class)))
  /\ waitlisted_of 1 (bookings (snd (cancel_booking no_faults user_10 "1" full_class)))
     = [mkBooking 2 1 20 1 waitlist None 300 None 300;
        mkBooking 3 1 30 1 waitlist None 200 None 200].
Proof.
  apply (cancel_answers_500_and_promotes_nobody no_faults 10 1
           "u10@example.com" full_class
           (mkBooking 1 1 10 1 confirmed None 100 None 100)).
  - left. reflexivity.
  - reflexivity.
  - reflexivity.
Defined.

(** C9: what the code does where the claim expects a Waitlisted
    reservation to become Cancelled.  Its holder is answered 500 'Failed
    to cancel booking' and the database is as before: the reservation is
    still Waitlisted. *)
Theorem cancel_waitlisted_answers_500_and_keeps_the_row
    env userId gymId email param bookingId db b :
  parseInt param = Some bookingId ->
  find (fun r => (bk_id r =? bookingId) && (bk_userId r =? userId))
       (bookings db) = Some b ->
  bk_status b = waitlist ->
  cancel_booking env (req_user_of_user userId gymId email) param db
  = (cancel_failed, db)
  /\ find (fun r => (bk_id r =? bookingId) && (bk_userId r =? userId))
          (bookings (snd (cancel_booking env (req_user_of_user userId gymId email)
                                         param db)))
     = Some b.
Proof.
  intros _ Hfind _.
  rewrite cancel_booking_without_id by reflexivity.
  split; [reflexivity | exact Hfind].
Qed.

Lemma cancel_waitlisted_answers_500_and_keeps_the_row_witness :
  cancel_booking no_faults user_30 "3" full_class = (cancel_failed, full_class)
  /\ find (fun r => (bk_id r =? 3) && (bk_userId r =? 30))
          (bookings (snd (cancel_booking no_faults user_30 "3" full_class)))
     = Some (mkBooking 3 1 30 1 waitlist None 200 None 200).
Proof.
  apply (cancel_waitlisted_answers_500_and_keeps_the_row no_faults 30 1
           "u30@example.com" "3" 3 full_class
           (mkBooking 3 1 30 1 waitlist None 200 None 200));
    reflexivity.
Defined.

(** X3: no create or cancel request is served.  Whoever calls it, the
    create handler stores nothing and never answers 201, because its
    insert names no gym.  For a caller authenticated by
    [authenticateToken], no request changes the database: creating is
    answered 400 (a body that does not validate), 404 (a class that is
    missing or inactive) or 500; cancelling is answered 500 whatever the
    booking and the caller. *)
Theorem booking_routes_serve_no_caller env req_user :
  authenticated req_user ->
  (forall any_user req_body db,
      snd (create_booking env any_user req_body db) = db
      /\ res_status (fst (create_booking env any_user req_body db)) <> 201)
  /\ (forall req_body db,
        fst (create_booking env req_user req_body db) = mkResponse 400 ZodIssues
        \/ fst (create_booking env req_user req_body db)
           = mkResponse 404 (Error "Class not found or inactive")
        \/ fst (create_booking env req_user req_body db) = create_failed)
  /\ (forall param db,
        cancel_booking env req_user param db = (cancel_failed, db)).
Proof.
  intro Hauth. pose proof (authenticated_has_no_id _ Hauth) as Hid.
  split; [|split].
  - intros any_user req_body db. apply create_booking_stores_nothing.
  - intros req_body db. rewrite create_booking_without_id by exact Hid.
    destruct (createBookingSchema_parse req_body) as [[classId notes]|];
      [|left; reflexivity].
    destruct (db_fails env SelectClass); [right; right; reflexivity|].
    destruct (select_class classId db) as [c|]; [|right; left; reflexivity].
    destruct (cl_isActive c);
      [right; right; reflexivity | right; left; reflexivity].
  - intros param db. apply cancel_booking_without_id. exact Hid.
Qed.

Lemma booking_routes_serve_no_caller_witness :
  cancel_booking no_faults (req_user_of_owner 5 "owner@example.com") "2" full_class
  = (cancel_failed, full_class)
  /\ cancel_booking no_faults user_20 "two" full_class
     = (cancel_failed, full_class).
Proof.
  split.
  - apply (proj2 (proj2 (booking_routes_serve_no_caller no_faults
                           (req_user_of_owner 5 "owner@example.com")
                           (authenticated_owner 5 "owner@example.com")))).
  - apply (proj2 (proj2 (booking_routes_serve_no_caller no_faults user_20
                           (authenticated_user 20 1 "u20@example.com")))).
Defined.

(** X20: [GET /my-bookings] lists nothing: a caller authenticated by
    [authenticateToken] is answered 500 'Failed to get bookings', whatever
    the status filter and whatever bookings the caller holds. *)
Theorem my_bookings_answers_500 env req_user status db :
  authenticated req_user ->
  my_bookings env req_user status db = (list_failed, db).
Proof.
  intro Hauth. apply my_bookings_without_id.
  apply authenticated_has_no_id. exact Hauth.
Qed.

Lemma my_bookings_answers_500_witness :
  held_by 20 1 full_class = [mkBooking 2 1 20 1 waitlist None 300 None 300]
  /\ my_bookings no_faults user_20 (Some "waitlist") full_class
     = (list_failed, full_class).
Proof.
  split; [reflexivity|].
  apply (my_bookings_answers_500 no_faults user_20 (Some "waitlist") full_class
           (authenticated_user 20 1 "u20@example.com")).
Defined.

End BookingFacts.

(** ** Payment reconciliation *)

Section PaymentFacts.
Import Js Payments PaymentSpec PaymentInv.

Example scenario_subscription_approved :
  webhook gateway_approves_undated payment_555 awaiting_payment
  = (Return (mkResponse 200 ReceivedProcessed),
     mkDb []
          [mkSubscriptionPayment 42 7 approved (Some "555") None 1000
             (Some (MetaObj
                [("mercadopago_status", JStr "approved");
                 ("mercadopago_status_detail", JStr "accredited");
                 ("payment_method_id", JStr "visa");
                 ("payment_type_id", JStr "credit_card");
                 ("last_webhook_action", JStr "payment.updated");
                 ("last_webhook_date", JStr "2024-01-01T00:00:00.000Z")]))]
          [mkSubscription 7 active 1000],
     [LogWebhookReceived; LogProcessingPayment; LogProcessingSubscriptionPayment;
      LogSubscriptionPaymentUpdated pending approved;
      LogActivatingSubscription 42; LogSubscriptionActivated 7]).
Proof. reflexivity. Qed.

(** The same delivery when the gateway gives the approval date: the
    number computed for [paidAt] is refused by the timestamp column. *)
Example scenario_subscription_approved_dated :
  webhook gateway_approves payment_555 awaiting_payment
  = (Return (mkResponse 500 (Error "Webhook processing failed")),
     awaiting_payment,
     [LogWebhookReceived; LogProcessingPayment; LogProcessingSubscriptionPayment;
      ErrorProcessingSubscriptionPayment TypeError;
      ErrorProcessingPayment TypeError; ErrorWebhookProcessing TypeError]).
Proof. reflexivity. Qed.

Lemma payment_status_eqb_spec (a b : payment_status) :
  Payments.status_eqb a b = true <-> a = b.
Proof. destruct a, b; simpl; split; intro H; try reflexivity; discriminate. Qed.

(** C7: [mapMercadoPagoStatus] is defined on every string and has exactly
    the table of the specification: approved gives Approved, cancelled and
    rejected give Cancelled, refunded gives Refunded, and every other
    string (pending, in_process, unknown words) gives Pending. *)
Theorem mapMercadoPagoStatus_table :
  mapMercadoPagoStatus "approved" = approved
  /\ mapMercadoPagoStatus "cancelled" = cancelled
  /\ mapMercadoPagoStatus "rejected" = cancelled
  /\ mapMercadoPagoStatus "refunded" = refunded
  /\ mapMercadoPagoStatus "pending" = pending
  /\ mapMercadoPagoStatus "in_process" = pending
  /\ (forall s : string,
        s <> "approved" -> s <> "cancelled" -> s <> "rejected" ->
        s <> "refunded" -> mapMercadoPagoStatus s = pending)
  /\ (forall s : string,
        exists st, mapMercadoPagoStatus s = st
                   /\ (st = approved \/ st = cancelled
                       \/ st = refunded \/ st = pending)).
Proof.
  repeat (split; [reflexivity|]). split.
  - intros s Ha Hc Hr Hf. unfold mapMercadoPagoStatus.
    apply String.eqb_neq in Ha, Hc, Hr, Hf. rewrite Ha, Hc, Hr, Hf. reflexivity.
  - intro s. eexists. split; [reflexivity|].
    destruct (mapMercadoPagoStatus s); tauto.
Qed.

Lemma mapMercadoPagoStatus_table_witness :
  mapMercadoPagoStatus "charged_back" = pending.
Proof.
  apply (proj1 (proj2 (proj2 (proj2 (proj2 (proj2 (proj2
           mapMercadoPagoStatus_table))))))); discriminate.
Defined.

(** *** The envelope *)

Lemma valid_structure_false_iff req_body :
  valid_structure req_body = false
  <-> truthy (get "type" req_body) = false \/ truthy (data_id req_body) = false.
Proof.
  unfold valid_structure, data_id.
  destruct (truthy (get "type" req_body)); simpl; [|tauto].
  destruct (get "data" req_body) as [d|];
    [destruct d as [| [] | n | str | items | o]|]; simpl;
    try destruct (n =? 0); try destruct (String.eqb str "");
    try destruct (truthy (get "id" o)); simpl;
    intuition (try discriminate; try reflexivity).
Qed.

Lemma webhook_run env req_body db :
  webhook env req_body db
  = if valid_structure req_body then
      match dispatch env req_body db with
      | (Return _, db', l) =>
          (Return (mkResponse 200 ReceivedProcessed), db', LogWebhookReceived :: l)
      | (Throw e, db', l) =>
          (Return (mkResponse 500 (Error "Webhook processing failed")), db',
           LogWebhookReceived :: l ++ [ErrorWebhookProcessing e])
      end
    else (Return (mkResponse 400 (Error "Invalid webhook structure")), db,
          [LogWebhookReceived; WarnInvalidStructure]).
Proof.
  unfold webhook, try_catch, bind, log, ret.
  destruct (valid_structure req_body); simpl; [|reflexivity].
  destruct (dispatch env req_body db) as [[[u|e] db'] l]; simpl.
  - rewrite app_nil_r. reflexivity.
  - reflexivity.
Qed.

Ltac unfold_stubs :=
  unfold dispatch, processSubscriptionWebhook, processPreapprovalWebhook,
    interpolate, bind, log, ret, throw;
  cbn [forallb].

(** A delivery of another type than payment writes nothing. *)
Lemma dispatch_other_type env req_body db :
  is_str "payment" (get "type" req_body) = false ->
  db_of (dispatch env req_body db) = db.
Proof.
  intro H. unfold_stubs. rewrite H.
  destruct (is_str "subscription" (get "type" req_body));
    [destruct (renders (data_id req_body) && (renders (get "action" req_body) && true));
     reflexivity|].
  destruct (is_str "preapproval" (get "type" req_body));
    [destruct (renders (data_id req_body) && (renders (get "action" req_body) && true));
     reflexivity|].
  destruct (renders (get "type" req_body) && true); reflexivity.
Qed.

(** It returns when its log line can be built. *)
Lemma dispatch_other_type_returns env req_body db :
  is_str "payment" (get "type" req_body) = false ->
  renders (get "type" req_body) = true ->
  renders (data_id req_body) = true ->
  renders (get "action" req_body) = true ->
  response_of (dispatch env req_body db) = Return tt.
Proof.
  intros H Ht Hi Ha. unfold_stubs. rewrite H, Ht, Hi, Ha.
  destruct (is_str "subscription" (get "type" req_body)); [reflexivity|].
  destruct (is_str "preapproval" (get "type" req_body)); reflexivity.
Qed.

Lemma webhook_other_type_frame env req_body db :
  is_str "payment" (get "type" req_body) = false ->
  db_of (webhook env req_body db) = db.
Proof.
  intro Hp. rewrite webhook_run.
  destruct (valid_structure req_body); [|reflexivity].
  pose proof (dispatch_other_type env req_body db Hp) as Hd.
  unfold db_of in *.
  destruct (dispatch env req_body db) as [[[u|e] db'] l]; exact Hd.
Qed.

(** C8: the handler answers 400 exactly when [type] or [data.id] is
    missing from the envelope (absent, or empty in JavaScript's sense:
    null, false, 0, the empty string); an envelope that has both is
    answered 200 with received and processed set whenever the dispatch
    returns; for the types subscription, preapproval and every
    unrecognised type nothing is written, and the dispatch returns as soon
    as the type, the id and the action can be printed in its log line. *)
Theorem webhook_bad_request_iff_missing env req_body db :
  (truthy (get "type" req_body) = false \/ truthy (data_id req_body) = false ->
   webhook env req_body db
   = (Return (mkResponse 400 (Error "Invalid webhook structure")), db,
      [LogWebhookReceived; WarnInvalidStructure]))
  /\ (truthy (get "type" req_body) = true -> truthy (data_id req_body) = true ->
      (exists r, response_of (webhook env req_body db) = Return r
                 /\ res_status r <> 400)
      /\ (response_of (dispatch env req_body db) = Return tt ->
          response_of (webhook env req_body db)
          = Return (mkResponse 200 ReceivedProcessed))
      /\ (is_str "payment" (get "type" req_body) = false ->
          db_of (webhook env req_body db) = db
          /\ (renders (get "type" req_body) = true ->
              renders (data_id req_body) = true ->
              renders (get "action" req_body) = true ->
              response_of (webhook env req_body db)
              = Return (mkResponse 200 ReceivedProcessed)))).
Proof.
  split.
  - intro H. apply valid_structure_false_iff in H.
    rewrite webhook_run, H. reflexivity.
  - intros Ht Hi.
    assert (Hv : valid_structure req_body = true).
    { destruct (valid_structure req_body) eqn:E; [reflexivity|].
      apply valid_structure_false_iff in E. destruct E; congruence. }
    split; [|split].
    + rewrite webhook_run, Hv.
      destruct (dispatch env req_body db) as [[[u|e] db'] l]; eexists;
        (split; [reflexivity | simpl; discriminate]).
    + rewrite webhook_run, Hv. unfold response_of.
      destruct (dispatch env req_body db) as [[[u|e] db'] l]; simpl;
        [reflexivity | discriminate].
    + intro Hother. split; [apply webhook_other_type_frame; exact Hother|].
      intros Hrt Hri Hra.
      pose proof (dispatch_other_type_returns env req_body db Hother Hrt Hri Hra)
        as Hr.
      rewrite webhook_run, Hv. unfold response_of in *.
      destruct (dispatch env req_body db) as [[[u|e] db'] l]; simpl in *;
        [reflexivity | discriminate].
Qed.

Lemma webhook_bad_request_iff_missing_witness :
  webhook gateway_down [("data", JObj [("id", JStr "555")])] awaiting_payment
  = (Return (mkResponse 400 (Error "Invalid webhook structure")),
     awaiting_payment, [LogWebhookReceived; WarnInvalidStructure])
  /\ (db_of (webhook gateway_down
                 [("type", JStr "preapproval"); ("data", JObj [("id", JNum 9)])]
                 awaiting_payment)
      = awaiting_payment
      /\ response_of (webhook gateway_down
                        [("type", JStr "preapproval"); ("data", JObj [("id", JNum 9)])]
                        awaiting_payment)
         = Return (mkResponse 200 ReceivedProcessed)).
Proof.
  split.
  - apply (proj1 (webhook_bad_request_iff_missing gateway_down
                    [("data", JObj [("id", JStr "555")])] awaiting_payment)).
    left. reflexivity.
  - destruct (proj2 (proj2 (proj2 (webhook_bad_request_iff_missing gateway_down
                    [("type", JStr "preapproval"); ("data", JObj [("id", JNum 9)])]
                    awaiting_payment) eq_refl eq_refl)) eq_refl) as [Hdb Hres].
    split; [exact Hdb|]. apply Hres; reflexivity.
Defined.

(** *** Case analysis over one delivery *)

(** Splits on the innermost scrutinee first, so that every branch of the
    handler is reached with the facts that select it. *)
Ltac split_run :=
  repeat match goal with
         | |- context [match ?x with _ => _ end] =>
             lazymatch x with
             | context [match _ with _ => _ end] => fail
             | _ => let E := fresh "E" in
                    destruct x eqn:E; simpl in *; try discriminate
             end
         end.

Ltac inject_some :=
  repeat match goal with
         | H : Some ?a = Some ?b |- _ =>
             first [is_var a | is_var b]; injection H as H; subst
         end.

Ltac unfold_handlers :=
  unfold dispatch, processPaymentWebhook, processSubscriptionPaymentWebhook,
    handleSubscriptionPaymentApproved, handlePaymentApproved,
    processSubscriptionWebhook, processPreapprovalWebhook,
    select_by_ref, bind_ref, interpolate,
    to_timestamp_column, paidAt_value, paymentDate_value,
    gateway_findById, js_toString, parse_metadata, db_call,
    try_catch, bind, log, ret, throw;
  simpl.

Lemma payment_status_eqb_refl (a : payment_status) :
  Payments.status_eqb a a = true.
Proof. destruct a; reflexivity. Qed.

Lemma webhook_subscriptions_frame env req_body db :
  subscriptions (db_of (webhook env req_body db)) = subscriptions db
  \/ exists sp mp,
      approval_edge env req_body db = Some (sp, mp)
      /\ subscriptions (db_of (webhook env req_body db))
         = activate_where env (sp_subscriptionId sp) (subscriptions db).
Proof.
  rewrite webhook_run.
  destruct (valid_structure req_body) eqn:Hv; [|left; reflexivity].
  destruct (is_str "payment" (get "type" req_body)) eqn:Hp.
  2:{ left. pose proof (dispatch_other_type env req_body db Hp) as Hd.
      unfold response_of, db_of in *.
      destruct (dispatch env req_body db) as [[[u|e] db'] l]; simpl in *;
        congruence. }
  unfold approval_edge, db_of. rewrite Hv, Hp. unfold_handlers. rewrite Hp.
  split_run; try (left; reflexivity); right; eauto.
Qed.

Lemma activate_where_activated_only env subscriptionId rows :
  Forall2 (activated_only subscriptionId) rows
          (activate_where env subscriptionId rows).
Proof.
  unfold activate_where.
  induction rows as [|s l IH]; simpl; constructor; [|exact IH].
  unfold activated_only. destruct (sub_id s =? subscriptionId); simpl; tauto.
Qed.

Lemma approval_edge_inv env req_body db sp mp :
  approval_edge env req_body db = Some (sp, mp) ->
  valid_structure req_body = true
  /\ is_str "payment" (get "type" req_body) = true
  /\ findById env (data_id req_body) = GwReturns (Some mp)
  /\ (exists ref, mp_external_reference mp = Some ref
                  /\ String.eqb ref "" = false
                  /\ find_by_ref sp_id ref (subscriptionPayments db) = Some sp)
  /\ mapMercadoPagoStatus (status_or_pending mp) = approved
  /\ sp_status sp <> approved.
Proof.
  unfold approval_edge.
  destruct (valid_structure req_body && is_str "payment" (get "type" req_body))
    eqn:Hvp; [|discriminate].
  destruct (findById env (data_id req_body)) as [|[m|]] eqn:Hgw;
    try discriminate.
  destruct (mp_external_reference m) as [ref|] eqn:Href; [|discriminate].
  destruct (String.eqb ref "") eqn:Hne; [discriminate|].
  destruct (find_by_ref sp_id ref (subscriptionPayments db)) as [s|] eqn:Hfind;
    [|discriminate].
  destruct (Payments.status_eqb (mapMercadoPagoStatus (status_or_pending m)) approved
            && negb (Payments.status_eqb (sp_status s) approved)) eqn:Hedge;
    [|discriminate].
  intro H. inversion H; subst.
  apply andb_prop in Hvp. destruct Hvp as [Hv Hp].
  apply andb_prop in Hedge. destruct Hedge as [Ha Hn].
  apply payment_status_eqb_spec in Ha.
  repeat split; try assumption.
  - eexists. repeat split; eassumption.
  - intro Hs. rewrite Hs in Hn. discriminate.
Qed.

Lemma find_map_by_id {R} (rid : R -> Z) (g : R -> R) (n : Z) (rows : list R) :
  (forall r, rid (g r) = rid r) ->
  find (fun r => rid r =? n) (map g rows)
  = option_map g (find (fun r => rid r =? n) rows).
Proof.
  intro Hid. induction rows as [|r l IH]; simpl; [reflexivity|].
  rewrite Hid. destruct (rid r =? n); [reflexivity | exact IH].
Qed.

Lemma find_by_ref_id {R} (rid : R -> Z) ref rows (r : R) :
  find_by_ref rid ref rows = Some r -> parseInt ref = Some (rid r).
Proof.
  unfold find_by_ref. destruct (parseInt ref) as [n|]; [|discriminate].
  intro H. apply find_some in H. destruct H as [_ H].
  apply Z.eqb_eq in H. congruence.
Qed.

(** The run of a delivery on the approval edge, when the log line can be
    built, the gateway gives no approval date and the reads and the write
    to [subscription_payments] go through. *)
Lemma webhook_on_approval_edge env req_body db sp mp mpid :
  approval_edge env req_body db = Some (sp, mp) ->
  renders (data_id req_body) = true ->
  renders (get "action" req_body) = true ->
  db_fails env SelectSubscriptionPayments = false ->
  db_fails env UpdateSubscriptionPayments = false ->
  toString (mp_id mp) = Some mpid ->
  sp_metadata sp <> Some MetaInvalid ->
  mp_date_approved mp = None ->
  exists o,
    let rows :=
      map (fun r => if sp_id r =? sp_id sp
                    then update_subscriptionPayment env r approved mpid None
                           (merged_metadata env o mp (get "action" req_body))
                    else r)
          (subscriptionPayments db) in
    webhook env req_body db
    = if db_fails env UpdateSubscriptions then
        (Return (mkResponse 200 ReceivedProcessed),
         mkDb (payments db) rows (subscriptions db),
         [LogWebhookReceived; LogProcessingPayment;
          LogProcessingSubscriptionPayment;
          LogSubscriptionPaymentUpdated (sp_status sp) approved;
          LogActivatingSubscription (sp_id sp);
          ErrorActivatingSubscription (DbError UpdateSubscriptions)])
      else
        (Return (mkResponse 200 ReceivedProcessed),
         mkDb (payments db) rows
              (activate_where env (sp_subscriptionId sp) (subscriptions db)),
         [LogWebhookReceived; LogProcessingPayment;
          LogProcessingSubscriptionPayment;
          LogSubscriptionPaymentUpdated (sp_status sp) approved;
          LogActivatingSubscription (sp_id sp);
          LogSubscriptionActivated (sp_subscriptionId sp)]).
Proof.
  intros Hedge Hri Hra Hsel Hupd Hid Hmeta Hdate.
  destruct (approval_edge_inv _ _ _ _ _ Hedge)
    as (Hv & Hp & Hgw & (ref & Href & Hne & Hfind) & Hmap & Hst).
  assert (Hneq : Payments.status_eqb (sp_status sp) approved = false).
  { destruct (Payments.status_eqb (sp_status sp) approved) eqn:E; [|reflexivity].
    apply payment_status_eqb_spec in E. contradiction. }
  pose proof (find_by_ref_id _ _ _ _ Hfind) as Hn.
  exists (match sp_metadata sp with Some (MetaObj o) => o | _ => [] end).
  rewrite webhook_run, Hv. unfold_handlers.
  rewrite Hp, Hri, Hra, Hgw. simpl. rewrite Href. simpl. rewrite Hne. simpl.
  rewrite Hn. simpl.
  rewrite Hsel. simpl. rewrite Hfind. simpl. rewrite Hmap, Hneq. simpl.
  rewrite Hid. simpl.
  destruct (sp_metadata sp) as [[o|]|]; try congruence; simpl;
    rewrite Hdate; simpl;
    rewrite Hupd; simpl; destruct (db_fails env UpdateSubscriptions);
    reflexivity.
Qed.

Lemma update_approved_only env spid mpid paidAt meta rows :
  Forall2 (approved_only spid) rows
          (map (fun r => if sp_id r =? spid
                         then update_subscriptionPayment env r approved mpid
                                paidAt meta
                         else r) rows).
Proof.
  induction rows as [|r l IH]; simpl; constructor; [|exact IH].
  unfold approved_only. destruct (sp_id r =? spid); simpl; tauto.
Qed.

Lemma Forall2_same {A} (R : A -> A -> Prop) (l : list A) :
  (forall x, R x x) -> Forall2 R l l.
Proof. intro H. induction l; constructor; auto. Qed.

(** On the approval edge an acknowledged delivery has written the payment
    Approved and has attempted the activation. *)
Lemma webhook_acknowledged_on_edge env req_body db sp mp :
  approval_edge env req_body db = Some (sp, mp) ->
  response_of (webhook env req_body db)
  = Return (mkResponse 200 ReceivedProcessed) ->
  exists mpid o,
    db_of (webhook env req_body db)
    = mkDb (payments db)
           (map (fun r => if sp_id r =? sp_id sp
                          then update_subscriptionPayment env r approved mpid None
                                 (merged_metadata env o mp (get "action" req_body))
                          else r)
                (subscriptionPayments db))
           (if db_fails env UpdateSubscriptions then subscriptions db
            else activate_where env (sp_subscriptionId sp) (subscriptions db)).
Proof.
  intros Hedge.
  destruct (approval_edge_inv _ _ _ _ _ Hedge)
    as (Hv & Hp & Hgw & (ref & Href & Hne & Hfind) & Hmap & Hst).
  assert (Hneq : Payments.status_eqb (sp_status sp) approved = false).
  { destruct (Payments.status_eqb (sp_status sp) approved) eqn:E; [|reflexivity].
    apply payment_status_eqb_spec in E. contradiction. }
  pose proof (find_by_ref_id _ _ _ _ Hfind) as Hn.
  rewrite webhook_run, Hv. unfold response_of, db_of. unfold_handlers.
  rewrite Hp.
  destruct (renders (data_id req_body)); simpl; [|discriminate].
  destruct (renders (get "action" req_body)); simpl; [|discriminate].
  rewrite Hgw. simpl. rewrite Href. simpl. rewrite Hne. simpl.
  rewrite Hn. simpl.
  destruct (db_fails env SelectSubscriptionPayments); simpl; [discriminate|].
  rewrite Hfind, Hmap, Hneq. simpl.
  split_run; intro H200; try discriminate; eexists; eexists; reflexivity.
Qed.

(** C5 fails as stated: on the approval edge the subscription payment goes
    from Pending to Approved, and the subscription is not set to Active,
    because the write to [subscriptions] is rejected and
    [handleSubscriptionPaymentApproved] swallows the exception.  The next
    delivery finds the payment Approved already and activates nothing. *)
Lemma approved_payment_leaves_subscription_pending :
  approval_edge activation_fails payment_555 awaiting_payment
  = Some (mkSubscriptionPayment 42 7 pending None None 0 None,
          approved_42_undated)
  /\ response_of (webhook activation_fails payment_555 awaiting_payment)
     = Return (mkResponse 200 ReceivedProcessed)
  /\ map sp_status
         (subscriptionPayments
            (db_of (webhook activation_fails payment_555 awaiting_payment)))
     = [approved]
  /\ subscriptions (db_of (webhook activation_fails payment_555 awaiting_payment))
     = [mkSubscription 7 pending_payment 0]
  /\ subscriptions
       (db_of (webhook activation_retried payment_555
                 (db_of (webhook activation_fails payment_555 awaiting_payment))))
     = [mkSubscription 7 pending_payment 0].
Proof. repeat split. Qed.

(** C5, amended: a delivery sets a subscription to Active only on the
    approval edge, where the subscription payment it resolves to goes from
    a stored status other than Approved to Approved: off the edge, and for
    every mapped status other than Approved, the subscriptions are
    untouched; no delivery writes any status but Active.  On the edge,
    when the payment is written Approved (the log line can be built, the
    gateway's payment has an id and no approval date, the stored metadata
    parses, the reads and the write go through) and the write to
    [subscriptions] is not rejected, its subscription, and only that one,
    becomes Active. *)
Theorem subscription_activated_only_on_approval_edge env req_body db :
  (approval_edge env req_body db = None ->
   subscriptions (db_of (webhook env req_body db)) = subscriptions db)
  /\ (forall mp,
        findById env (data_id req_body) = GwReturns (Some mp) ->
        mapMercadoPagoStatus (status_or_pending mp) <> approved ->
        subscriptions (db_of (webhook env req_body db)) = subscriptions db)
  /\ Forall2 (fun old new =>
                new = old \/ (sub_status new = active /\ sub_id new = sub_id old))
             (subscriptions db)
             (subscriptions (db_of (webhook env req_body db)))
  /\ (forall sp mp mpid,
        approval_edge env req_body db = Some (sp, mp) ->
        renders (data_id req_body) = true ->
        renders (get "action" req_body) = true ->
        db_fails env SelectSubscriptionPayments = false ->
        db_fails env UpdateSubscriptionPayments = false ->
        db_fails env UpdateSubscriptions = false ->
        toString (mp_id mp) = Some mpid ->
        sp_metadata sp <> Some MetaInvalid ->
        mp_date_approved mp = None ->
        response_of (webhook env req_body db)
        = Return (mkResponse 200 ReceivedProcessed)
        /\ Forall2 (approved_only (sp_id sp))
                   (subscriptionPayments db)
                   (subscriptionPayments (db_of (webhook env req_body db)))
        /\ Forall2 (activated_only (sp_subscriptionId sp))
                   (subscriptions db)
                   (subscriptions (db_of (webhook env req_body db))))
  /\ (forall sp mp,
        approval_edge env req_body db = Some (sp, mp) ->
        response_of (webhook env req_body db)
        = Return (mkResponse 200 ReceivedProcessed) ->
        db_fails env UpdateSubscriptions = false ->
        Forall2 (approved_only (sp_id sp))
                (subscriptionPayments db)
                (subscriptionPayments (db_of (webhook env req_body db)))
        /\ Forall2 (activated_only (sp_subscriptionId sp))
                   (subscriptions db)
                   (subscriptions (db_of (webhook env req_body db)))).
Proof.
  split; [|split; [|split; [|split]]].
  - intro Hnone.
    destruct (webhook_subscriptions_frame env req_body db)
      as [H | (sp & mp & Hedge & _)]; [exact H | congruence].
  - intros mp Hgw Hmap.
    destruct (webhook_subscriptions_frame env req_body db)
      as [H | (sp & mp' & Hedge & _)]; [exact H|].
    apply approval_edge_inv in Hedge.
    destruct Hedge as (_ & _ & Hgw' & _ & Hmap' & _).
    rewrite Hgw in Hgw'. inversion Hgw'; subst. contradiction.
  - destruct (webhook_subscriptions_frame env req_body db)
      as [H | (sp & mp & _ & H)]; rewrite H.
    + apply Forall2_same. intro x. left. reflexivity.
    + unfold activate_where. clear H.
      induction (subscriptions db) as [|s l IH]; simpl; constructor;
        [|exact IH].
      destruct (sub_id s =? sp_subscriptionId sp); simpl; auto.
  - intros sp mp mpid Hedge Hri Hra Hsel Hupd Hsub Hid Hmeta Hdate.
    destruct (webhook_on_approval_edge env req_body db sp mp mpid
                Hedge Hri Hra Hsel Hupd Hid Hmeta Hdate) as [o Hrun].
    cbv zeta in Hrun. rewrite Hsub in Hrun. rewrite Hrun.
    unfold response_of, db_of. simpl. split; [reflexivity|]. split.
    + apply update_approved_only.
    + apply activate_where_activated_only.
  - intros sp mp Hedge H200 Hsub.
    destruct (webhook_acknowledged_on_edge env req_body db sp mp Hedge H200)
      as (mpid & o & Hrun).
    rewrite Hrun, Hsub. unfold db_of. simpl. split.
    + apply update_approved_only.
    + apply activate_where_activated_only.
Qed.

Lemma subscription_activated_only_on_approval_edge_witness :
  response_of (webhook gateway_approves_undated payment_555 awaiting_payment)
  = Return (mkResponse 200 ReceivedProcessed)
  /\ Forall2 (approved_only 42)
             (subscriptionPayments awaiting_payment)
             (subscriptionPayments
                (db_of (webhook gateway_approves_undated payment_555
                          awaiting_payment)))
  /\ Forall2 (activated_only 7)
             (subscriptions awaiting_payment)
             (subscriptions
                (db_of (webhook gateway_approves_undated payment_555
                          awaiting_payment))).
Proof.
  apply (proj1 (proj2 (proj2 (proj2
           (subscription_activated_only_on_approval_edge
              gateway_approves_undated payment_555 awaiting_payment))))
           (mkSubscriptionPayment 42 7 pending None None 0 None)
           approved_42_undated "555");
    try reflexivity.
  discriminate.
Defined.

(** C10: when the subscription payment has been written Approved (the
    log line can be built, the gateway's payment has an id and no approval
    date, the stored metadata parses, the reads and the write go through)
    and the write that activates the subscription is rejected,
    [handleSubscriptionPaymentApproved] swallows the exception: the
    subscription payment keeps the Approved status just written, the
    subscriptions are unchanged, the failure is logged and the webhook
    still answers 200, so an Approved subscription payment does not imply
    an Active subscription. *)
Theorem activation_failure_is_swallowed env req_body db sp mp mpid :
  approval_edge env req_body db = Some (sp, mp) ->
  renders (data_id req_body) = true ->
  renders (get "action" req_body) = true ->
  db_fails env SelectSubscriptionPayments = false ->
  db_fails env UpdateSubscriptionPayments = false ->
  db_fails env UpdateSubscriptions = true ->
  toString (mp_id mp) = Some mpid ->
  sp_metadata sp <> Some MetaInvalid ->
  mp_date_approved mp = None ->
  (forall db0, handleSubscriptionPaymentApproved env sp db0
               = (Return tt, db0,
                  [LogActivatingSubscription (sp_id sp);
                   ErrorActivatingSubscription (DbError UpdateSubscriptions)]))
  /\ response_of (webhook env req_body db)
     = Return (mkResponse 200 ReceivedProcessed)
  /\ Forall2 (approved_only (sp_id sp))
             (subscriptionPayments db)
             (subscriptionPayments (db_of (webhook env req_body db)))
  /\ subscriptions (db_of (webhook env req_body db)) = subscriptions db
  /\ In (ErrorActivatingSubscription (DbError UpdateSubscriptions))
        (logs_of (webhook env req_body db)).
Proof.
  intros Hedge Hri Hra Hsel Hupd Hsub Hid Hmeta Hdate. split.
  - intro db0. unfold_handlers. rewrite Hsub. reflexivity.
  - destruct (webhook_on_approval_edge env req_body db sp mp mpid
                Hedge Hri Hra Hsel Hupd Hid Hmeta Hdate) as [o Hrun].
    cbv zeta in Hrun. rewrite Hsub in Hrun. rewrite Hrun.
    unfold response_of, db_of, logs_of. simpl.
    split; [reflexivity|]. split; [apply update_approved_only|].
    split; [reflexivity|]. tauto.
Qed.

Lemma activation_failure_is_swallowed_witness :
  response_of (webhook activation_fails payment_555 awaiting_payment)
  = Return (mkResponse 200 ReceivedProcessed)
  /\ map sp_status
         (subscriptionPayments
            (db_of (webhook activation_fails payment_555 awaiting_payment)))
     = [approved]
  /\ map sub_status
         (subscriptions
            (db_of (webhook activation_fails payment_555 awaiting_payment)))
     = [pending_payment].
Proof.
  destruct (activation_failure_is_swallowed activation_fails payment_555
              awaiting_payment
              (mkSubscriptionPayment 42 7 pending None None 0 None)
              approved_42_undated "555")
    as (_ & Hres & _ & Hsubs & _);
    try reflexivity; try discriminate.
  split; [exact Hres|]. split; [reflexivity|].
  rewrite Hsubs. reflexivity.
Defined.

(** C6 fails as stated: the gateway fetch throws for a well-formed payment
    envelope and the endpoint answers 500, not 200. *)
Lemma webhook_answers_500_when_gateway_throws :
  webhook gateway_down payment_555 awaiting_payment
  = (Return (mkResponse 500 (Error "Webhook processing failed")),
     awaiting_payment,
     [LogWebhookReceived; LogProcessingPayment;
      ErrorProcessingPayment GatewayError; ErrorWebhookProcessing GatewayError])
  /\ valid_structure payment_555 = true
  /\ findById gateway_down (data_id payment_555) = GwThrows.
Proof. repeat split. Qed.

(** C6, amended: only a structurally invalid envelope is answered 400.
    For a well-formed payment envelope whose id and action can be printed
    in the log line, a fetch that returns no payment or no external
    reference, and a reference that is a number and matches no local
    record, end silently with 200 and no write; an exception thrown by the
    fetch or by a lookup (which the database rejects, or to which a
    reference that is not a number cannot be bound) is logged, rethrown
    and answered 500, with no write; so is the exception of a log line
    that cannot be built. *)
Theorem payment_webhook_failure_semantics env req_body db :
  (forall r, response_of (webhook env req_body db) = Return r ->
             res_status r = 400 -> valid_structure req_body = false)
  /\
  (valid_structure req_body = true ->
  is_str "payment" (get "type" req_body) = true ->
  (renders (data_id req_body) && renders (get "action" req_body) = false ->
   response_of (webhook env req_body db)
   = Return (mkResponse 500 (Error "Webhook processing failed"))
   /\ db_of (webhook env req_body db) = db)
  /\
  (renders (data_id req_body) = true ->
  renders (get "action" req_body) = true ->
  (findById env (data_id req_body) = GwThrows ->
   webhook env req_body db
   = (Return (mkResponse 500 (Error "Webhook processing failed")), db,
      [LogWebhookReceived; LogProcessingPayment;
       ErrorProcessingPayment GatewayError;
       ErrorWebhookProcessing GatewayError]))
  /\ (forall r,
        findById env (data_id req_body) = GwReturns r ->
        match r with
        | None => True
        | Some mp => truthy (str_field (mp_external_reference mp)) = false
        end ->
        webhook env req_body db
        = (Return (mkResponse 200 ReceivedProcessed), db,
           [LogWebhookReceived; LogProcessingPayment; WarnNoExternalReference]))
  /\ (forall mp ref,
        findById env (data_id req_body) = GwReturns (Some mp) ->
        mp_external_reference mp = Some ref -> ref <> "" ->
        (parseInt ref = None ->
         webhook env req_body db
         = (Return (mkResponse 500 (Error "Webhook processing failed")), db,
            [LogWebhookReceived; LogProcessingPayment;
             ErrorProcessingPayment RangeError;
             ErrorWebhookProcessing RangeError]))
        /\ (parseInt ref <> None ->
            (db_fails env SelectSubscriptionPayments = true ->
             webhook env req_body db
             = (Return (mkResponse 500 (Error "Webhook processing failed")), db,
                [LogWebhookReceived; LogProcessingPayment;
                 ErrorProcessingPayment (DbError SelectSubscriptionPayments);
                 ErrorWebhookProcessing (DbError SelectSubscriptionPayments)]))
            /\ (db_fails env SelectSubscriptionPayments = false ->
                find_by_ref sp_id ref (subscriptionPayments db) = None ->
                (db_fails env SelectPayments = true ->
                 webhook env req_body db
                 = (Return (mkResponse 500 (Error "Webhook processing failed")), db,
                    [LogWebhookReceived; LogProcessingPayment;
                     ErrorProcessingPayment (DbError SelectPayments);
                     ErrorWebhookProcessing (DbError SelectPayments)]))
                /\ (db_fails env SelectPayments = false ->
                    find_by_ref pay_id ref (payments db) = None ->
                    webhook env req_body db
                    = (Return (mkResponse 200 ReceivedProcessed), db,
                       [LogWebhookReceived; LogProcessingPayment;
                        WarnPaymentNotInDatabase]))))))).
Proof.
  split.
  { intros r. rewrite webhook_run. unfold response_of.
    destruct (valid_structure req_body); [|reflexivity].
    destruct (dispatch env req_body db) as [[[u|e] db'] l]; simpl;
      intros H1 H2; inversion H1; subst; discriminate. }
  intros Hv Hp. rewrite webhook_run, Hv. unfold response_of, db_of.
  unfold_handlers. rewrite Hp.
  split.
  { intro Hnot.
    destruct (renders (data_id req_body)); simpl in *;
      [rewrite Hnot|]; split; reflexivity. }
  intros Hri Hra. rewrite Hri, Hra. simpl.
  split; [|split].
  - intro Hgw. rewrite Hgw. reflexivity.
  - intros r Hgw Hr. rewrite Hgw. simpl. destruct r as [mp|]; [|reflexivity].
    rewrite Hr. reflexivity.
  - intros mp ref Hgw Href Hne. rewrite Hgw. simpl. rewrite Href. simpl.
    apply String.eqb_neq in Hne. rewrite Hne. simpl. split.
    + intro Hnan. rewrite Hnan. reflexivity.
    + intro Hnum. destruct (parseInt ref) as [n|] eqn:Hn; [|congruence]. simpl.
      split.
      * intro Hf. rewrite Hf. reflexivity.
      * intros Hf Hnone. rewrite Hf. simpl. rewrite Hnone. simpl. split.
        -- intro Hf2. rewrite Hf2. reflexivity.
        -- intros Hf2 Hnone2. rewrite Hf2. simpl. rewrite Hnone2. reflexivity.
Qed.

Lemma payment_webhook_failure_semantics_witness :
  webhook gateway_down payment_555 awaiting_payment
  = (Return (mkResponse 500 (Error "Webhook processing failed")),
     awaiting_payment,
     [LogWebhookReceived; LogProcessingPayment;
      ErrorProcessingPayment GatewayError; ErrorWebhookProcessing GatewayError]).
Proof.
  apply (proj1 (proj2 (proj2 (payment_webhook_failure_semantics gateway_down
                                payment_555 awaiting_payment) eq_refl eq_refl)
                 eq_refl eq_refl)).
  reflexivity.
Defined.

Lemma find_by_ref_subscriptionPayment_updated env ref rows sp st mpid paidAt meta :
  find_by_ref sp_id ref rows = Some sp ->
  find_by_ref sp_id ref
    (map (fun r => if sp_id r =? sp_id sp
                   then update_subscriptionPayment env r st mpid paidAt meta
                   else r) rows)
  = Some (update_subscriptionPayment env sp st mpid paidAt meta).
Proof.
  intro H. pose proof (find_by_ref_id _ _ _ _ H) as Hn.
  unfold find_by_ref in *. rewrite Hn in *.
  rewrite find_map_by_id.
  - rewrite H. simpl. rewrite Z.eqb_refl. reflexivity.
  - intro r. destruct (sp_id r =? sp_id sp); reflexivity.
Qed.

Lemma find_by_ref_payment_updated env ref rows p st mpid paymentDate meta :
  find_by_ref pay_id ref rows = Some p ->
  find_by_ref pay_id ref
    (update_by_ref pay_id ref
       (fun r => update_payment env r st mpid paymentDate meta) rows)
  = Some (update_payment env p st mpid paymentDate meta).
Proof.
  intro H. pose proof (find_by_ref_id _ _ _ _ H) as Hn.
  unfold find_by_ref, update_by_ref in *. rewrite Hn in *.
  rewrite find_map_by_id.
  - rewrite H. simpl. rewrite Z.eqb_refl. reflexivity.
  - intro r. destruct (pay_id r =? pay_id p); reflexivity.
Qed.

Lemma resolved_status_gateway env1 env2 req_body db :
  findById env2 (data_id req_body) = findById env1 (data_id req_body) ->
  resolved_status env2 req_body db = resolved_status env1 req_body db.
Proof. intro H. unfold resolved_status. rewrite H. reflexivity. Qed.

Lemma payment_status_differs (a b : payment_status) :
  negb (Payments.status_eqb a b) = true -> b = a -> False.
Proof. intros H E. subst. rewrite payment_status_eqb_refl in H. discriminate. Qed.

(** The idempotency gate: a delivery that resolves to no record, or to a
    record already in the mapped status, writes nothing. *)
Lemma webhook_gate env req_body db :
  resolved_status env req_body db = None
  \/ (exists s, resolved_status env req_body db = Some (s, s)) ->
  db_of (webhook env req_body db) = db
  /\ existsb update_entry (logs_of (webhook env req_body db)) = false
  /\ existsb approval_entry (logs_of (webhook env req_body db)) = false.
Proof.
  rewrite webhook_run.
  destruct (valid_structure req_body) eqn:Hv; [|intros _; repeat split].
  destruct (is_str "payment" (get "type" req_body)) eqn:Hp.
  2:{ intros _. unfold_stubs. rewrite Hp.
      destruct (is_str "subscription" (get "type" req_body));
        [destruct (renders (data_id req_body)
                   && (renders (get "action" req_body) && true));
         repeat split|].
      destruct (is_str "preapproval" (get "type" req_body));
        [destruct (renders (data_id req_body)
                   && (renders (get "action" req_body) && true));
         repeat split|].
      destruct (renders (get "type" req_body) && true); repeat split. }
  unfold resolved_status, db_of, logs_of. rewrite Hv, Hp. unfold_handlers.
  rewrite Hp.
  split_run;
    try solve [intros _; repeat split; reflexivity];
    intros [Hres | [st0 Hres]]; try discriminate; inject_some;
    inversion Hres; subst;
    exfalso; eapply payment_status_differs; eassumption.
Qed.

Lemma resolved_status_run env req_body db :
  valid_structure req_body = true ->
  is_str "payment" (get "type" req_body) = true ->
  resolved_status env req_body db
  = match findById env (data_id req_body) with
    | GwReturns (Some mp) =>
        if negb (truthy (str_field (mp_external_reference mp))) then None
        else
          let ref :=
            match mp_external_reference mp with Some r => r | None => "" end in
          let newStatus := mapMercadoPagoStatus (status_or_pending mp) in
          match find_by_ref sp_id ref (subscriptionPayments db) with
          | Some sp => Some (sp_status sp, newStatus)
          | None =>
              match find_by_ref pay_id ref (payments db) with
              | Some p => Some (pay_status p, newStatus)
              | None => None
              end
          end
    | _ => None
    end.
Proof.
  intros Hv Hp. unfold resolved_status. rewrite Hv, Hp. simpl.
  destruct (findById env (data_id req_body)) as [|[mp|]]; try reflexivity.
  destruct (mp_external_reference mp) as [ref|]; [|reflexivity]. simpl.
  destruct (String.eqb ref ""); reflexivity.
Qed.

(** An acknowledged delivery leaves the record it resolves to, if any, in
    the mapped status. *)
Lemma acknowledged_delivery_settles env req_body db :
  response_of (webhook env req_body db)
  = Return (mkResponse 200 ReceivedProcessed) ->
  resolved_status env req_body (db_of (webhook env req_body db)) = None
  \/ (exists s, resolved_status env req_body (db_of (webhook env req_body db))
                = Some (s, s)).
Proof.
  rewrite webhook_run.
  destruct (valid_structure req_body) eqn:Hv; [|discriminate].
  destruct (is_str "payment" (get "type" req_body)) eqn:Hp.
  2:{ intros _. left. unfold resolved_status. rewrite Hv, Hp. reflexivity. }
  unfold response_of, db_of. unfold_handlers. rewrite Hp.
  split_run; intro H200; try discriminate; clear H200; inject_some;
    rewrite (resolved_status_run _ _ _ Hv Hp); simpl;
    repeat match goal with
           | H : ?t = _ |- context [?t] => progress (rewrite H; simpl)
           end;
    try (left; reflexivity);
    try match goal with
        | H : find_by_ref sp_id _ _ = Some _ |- _ =>
            rewrite (find_by_ref_subscriptionPayment_updated _ _ _ _ _ _ _ _ H)
        end;
    try match goal with
        | H : find_by_ref pay_id _ _ = Some _ |- _ =>
            rewrite (find_by_ref_payment_updated _ _ _ _ _ _ _ _ H)
        end;
    simpl; try (right; eexists; reflexivity);
    match goal with
    | H : negb (Payments.status_eqb _ _) = false |- _ =>
        apply negb_false_iff in H; apply payment_status_eqb_spec in H;
        rewrite H; right; eexists; reflexivity
    end.
Qed.

(** A delivery that is not acknowledged has written nothing. *)
Lemma unacknowledged_delivery_writes_nothing env req_body db :
  response_of (webhook env req_body db)
  <> Return (mkResponse 200 ReceivedProcessed) ->
  db_of (webhook env req_body db) = db.
Proof.
  rewrite webhook_run.
  destruct (valid_structure req_body) eqn:Hv; [|reflexivity].
  destruct (is_str "payment" (get "type" req_body)) eqn:Hp.
  2:{ intros _. pose proof (dispatch_other_type env req_body db Hp) as Hd.
      unfold response_of, db_of in *.
      destruct (dispatch env req_body db) as [[[u|e] db'] l]; simpl in *;
        congruence. }
  unfold response_of, db_of. unfold_handlers. rewrite Hp.
  split_run; intro H; try reflexivity; exfalso; apply H; reflexivity.
Qed.

(** C4: when the mapped status equals the stored status of the record a
    delivery resolves to, nothing is written and no approval side effect
    runs; hence redelivering a payload that was acknowledged, with the
    gateway giving the same answer, leaves the database as the first
    delivery left it and activates nothing again; and under one and the
    same environment a delivery processed twice leaves the database as
    one processing does. *)
Theorem webhook_redelivery_is_idempotent :
  (forall env req_body db s,
      resolved_status env req_body db = Some (s, s) ->
      db_of (webhook env req_body db) = db
      /\ existsb update_entry (logs_of (webhook env req_body db)) = false
      /\ existsb approval_entry (logs_of (webhook env req_body db)) = false)
  /\
  (forall env1 env2 req_body db,
      findById env2 (data_id req_body) = findById env1 (data_id req_body) ->
      response_of (webhook env1 req_body db)
      = Return (mkResponse 200 ReceivedProcessed) ->
      let db1 := db_of (webhook env1 req_body db) in
      db_of (webhook env2 req_body db1) = db1
      /\ existsb update_entry (logs_of (webhook env2 req_body db1)) = false
      /\ existsb approval_entry (logs_of (webhook env2 req_body db1)) = false)
  /\
  (forall env req_body db,
      db_of (webhook env req_body (db_of (webhook env req_body db)))
      = db_of (webhook env req_body db)).
Proof.
  assert (Hagain : forall env1 env2 req_body db,
             findById env2 (data_id req_body) = findById env1 (data_id req_body) ->
             response_of (webhook env1 req_body db)
             = Return (mkResponse 200 ReceivedProcessed) ->
             let db1 := db_of (webhook env1 req_body db) in
             db_of (webhook env2 req_body db1) = db1
             /\ existsb update_entry (logs_of (webhook env2 req_body db1)) = false
             /\ existsb approval_entry (logs_of (webhook env2 req_body db1))
                = false).
  { intros env1 env2 req_body db Hgw H200 db1. apply webhook_gate.
    rewrite (resolved_status_gateway env1 env2 req_body db1 Hgw).
    apply acknowledged_delivery_settles. exact H200. }
  split; [|split].
  - intros env req_body db s H. apply webhook_gate. right. exists s. exact H.
  - exact Hagain.
  - intros env req_body db.
    assert (Hdec : response_of (webhook env req_body db)
                   = Return (mkResponse 200 ReceivedProcessed)
                   \/ response_of (webhook env req_body db)
                      <> Return (mkResponse 200 ReceivedProcessed)).
    { rewrite webhook_run. unfold response_of.
      destruct (valid_structure req_body); [|right; discriminate].
      destruct (dispatch env req_body db) as [[[u|e] db'] l]; simpl;
        [left; reflexivity | right; discriminate]. }
    destruct Hdec as [H200 | Hnot].
    + apply (Hagain env env req_body db eq_refl H200).
    + rewrite (unacknowledged_delivery_writes_nothing env req_body db Hnot).
      apply (unacknowledged_delivery_writes_nothing env req_body db Hnot).
Qed.

Lemma webhook_redelivery_is_idempotent_witness :
  (let db1 := db_of (webhook gateway_approves_undated payment_555
                       awaiting_payment) in
   db_of (webhook gateway_approves_undated payment_555 db1) = db1
   /\ existsb update_entry
        (logs_of (webhook gateway_approves_undated payment_555 db1)) = false
   /\ existsb approval_entry
        (logs_of (webhook gateway_approves_undated payment_555 db1)) = false)
  /\
  (let db1 := db_of (webhook gateway_approves_undated payment_555
                       awaiting_payment) in
   db_of (webhook (later gateway_approves_undated) payment_555 db1) = db1
   /\ existsb update_entry
        (logs_of (webhook (later gateway_approves_undated) payment_555 db1))
      = false
   /\ existsb approval_entry
        (logs_of (webhook (later gateway_approves_undated) payment_555 db1))
      = false)
  /\
  (let db1 := db_of (webhook gateway_approves_17 payment_555 one_off_17) in
   db_of (webhook (later gateway_approves_17) payment_555 db1) = db1
   /\ existsb update_entry
        (logs_of (webhook (later gateway_approves_17) payment_555 db1)) = false
   /\ existsb approval_entry
        (logs_of (webhook (later gateway_approves_17) payment_555 db1)) = false).
Proof.
  split; [|split].
  - apply (proj1 webhook_redelivery_is_idempotent gateway_approves_undated
             payment_555
             (db_of (webhook gateway_approves_undated payment_555
                       awaiting_payment))
             approved).
    reflexivity.
  - apply (proj1 (proj2 webhook_redelivery_is_idempotent)
             gateway_approves_undated (later gateway_approves_undated)
             payment_555 awaiting_payment);
      reflexivity.
  - apply (proj1 (proj2 webhook_redelivery_is_idempotent)
             gateway_approves_17 (later gateway_approves_17)
             payment_555 one_off_17);
      reflexivity.
Defined.

(** The one-off payment of the scenario is settled with the gateway's
    approval date in whole seconds. *)
Example scenario_one_off_approved :
  webhook gateway_approves_17 payment_555 one_off_17
  = (Return (mkResponse 200 ReceivedProcessed),
     mkDb [mkPayment 17 3 1 approved (Some "555") (Some approved_17_seconds) 1000
             (Some (MetaObj
                [("plan", JStr "monthly");
                 ("mercadopago_status", JStr "approved");
                 ("last_webhook_action", JStr "payment.updated");
                 ("last_webhook_date", JStr "2024-01-01T00:00:00.000Z")]))]
          [] [],
     [LogWebhookReceived; LogProcessingPayment;
      LogPaymentUpdated pending approved; LogProcessingApprovedPayment]).
Proof. reflexivity. Qed.

Example redelivery_logs_unchanged :
  webhook (later gateway_approves_undated) payment_555
          (db_of (webhook gateway_approves_undated payment_555 awaiting_payment))
  = (Return (mkResponse 200 ReceivedProcessed),
     db_of (webhook gateway_approves_undated payment_555 awaiting_payment),
     [LogWebhookReceived; LogProcessingPayment; LogProcessingSubscriptionPayment;
      LogSubscriptionPaymentUnchanged approved]).
Proof. reflexivity. Qed.

End PaymentFacts.

(** ** Ids as text: [toString] and [parseInt] *)

Section IdsAsText.
Import Js.

Lemma digits_of_uint (d acc : Decimal.uint) :
  digits 10 (NilEmpty.string_of_uint d) (Some (Z.of_N (DecimalPos.Unsigned.of_lu acc)))
  = Some (Z.of_N (DecimalPos.Unsigned.of_lu (Decimal.revapp d acc))).
Proof.
  revert acc. induction d; intro acc; cbn [NilEmpty.string_of_uint Decimal.revapp];
    [reflexivity| ..];
    cbn [digits];
    match goal with
    | |- context [digit_of 10 ?c] =>
        let v := eval vm_compute in (digit_of 10 c) in
        change (digit_of 10 c) with v
    end;
    rewrite <- IHd; do 2 f_equal; cbn [DecimalPos.Unsigned.of_lu]; lia.
Qed.

Lemma digits_of_uint_start (d : Decimal.uint) :
  d <> Decimal.Nil ->
  digits 10 (NilEmpty.string_of_uint d) None = Some (Z.of_uint d).
Proof.
  intro Hd. unfold Z.of_uint. rewrite DecimalPos.Unsigned.of_uint_alt. unfold Decimal.rev.
  destruct d; [congruence| ..];
    cbn [NilEmpty.string_of_uint Decimal.revapp digits];
    match goal with
    | |- context [digit_of 10 ?c] =>
        let v := eval vm_compute in (digit_of 10 c) in
        change (digit_of 10 c) with v
    end;
    rewrite <- digits_of_uint; reflexivity.
Qed.

Ltac use_digits :=
  match goal with
  | |- context [Z.of_uint ?d] =>
      let H := fresh "H" in
      assert (H : d <> Decimal.Nil) by discriminate;
      apply digits_of_uint_start in H;
      cbn [NilEmpty.string_of_uint] in H; rewrite H
  end.

Lemma parseInt_of_uint (d : Decimal.uint) :
  d <> Decimal.Nil ->
  parseInt (NilEmpty.string_of_uint d) = Some (Z.of_uint d)
  /\ parseInt (String "-" (NilEmpty.string_of_uint d)) = Some (- Z.of_uint d).
Proof.
  intro Hd.
  destruct d as [|d|d|d|d|d|d|d|d|d|d]; [congruence| ..];
    destruct d;
    unfold parseInt;
    cbn [skip_ws NilEmpty.string_of_uint];
    repeat match goal with
           | |- context [is_ws ?c] =>
               let v := eval vm_compute in (is_ws c) in
               change (is_ws c) with v
           | |- context [is_ws_lead ?c] =>
               let v := eval vm_compute in (is_ws_lead c) in
               change (is_ws_lead c) with v
           end;
    cbn -[digits Z.of_uint Z.mul Z.opp];
    split; use_digits; f_equal; lia.
Qed.

Lemma parseInt_decimal (n : Z) : parseInt (string_of_Z n) = Some n.
Proof.
  unfold string_of_Z, NilZero.string_of_int, Z.to_int.
  destruct n as [|p|p].
  - reflexivity.
  - pose proof (DecimalPos.Unsigned.to_uint_nonnil p) as Hnil.
    pose proof (DecimalPos.Unsigned.of_to p) as Hval.
    destruct (parseInt_of_uint (Pos.to_uint p) Hnil) as [Hpos _].
    unfold NilZero.string_of_uint.
    destruct (Pos.to_uint p) eqn:E; try congruence;
      rewrite Hpos; unfold Z.of_uint; rewrite Hval; reflexivity.
  - pose proof (DecimalPos.Unsigned.to_uint_nonnil p) as Hnil.
    pose proof (DecimalPos.Unsigned.of_to p) as Hval.
    destruct (parseInt_of_uint (Pos.to_uint p) Hnil) as [_ Hneg].
    unfold NilZero.string_of_uint.
    destruct (Pos.to_uint p) eqn:E; try congruence;
      rewrite Hneg; unfold Z.of_uint; rewrite Hval; reflexivity.
Qed.

End IdsAsText.

(** ** Further properties of the reconciliation *)

Section PaymentInvariants.
Import Js Payments PaymentSpec PaymentInv.

Ltac by_cases :=
  repeat match goal with
         | |- context [match ?x with _ => _ end] =>
             lazymatch x with
             | context [match _ with _ => _ end] => fail
             | _ => let E := fresh "E" in
                    destruct x eqn:E; simpl in *; try discriminate
             end
         end.

Ltac open_handlers :=
  unfold dispatch, processPaymentWebhook, processSubscriptionPaymentWebhook,
    handleSubscriptionPaymentApproved, handlePaymentApproved,
    processSubscriptionWebhook, processPreapprovalWebhook,
    select_by_ref, bind_ref, interpolate,
    to_timestamp_column, paidAt_value, paymentDate_value,
    gateway_findById, js_toString, parse_metadata, db_call,
    try_catch, bind, log, ret, throw;
  simpl.

Ltac some_eq :=
  repeat match goal with
         | H : Some ?a = Some ?b |- _ =>
             first [is_var a | is_var b]; injection H as H; subst
         end.

(** *** Metadata is merged, not replaced *)

Lemma get_app_last k k' v o :
  get k (o ++ [(k', v)]) = if String.eqb k k' then Some v else get k o.
Proof.
  induction o as [|[k0 v0] l IH]; simpl.
  - destruct (String.eqb k k'); reflexivity.
  - rewrite IH. destruct (String.eqb k k'); [reflexivity|].
    reflexivity.
Qed.

Lemma get_filter_other k k' o :
  String.eqb k k' = false ->
  get k (filter (fun kv => negb (String.eqb (fst kv) k')) o) = get k o.
Proof.
  intro Hne. induction o as [|[k0 v0] l IH]; simpl; [reflexivity|].
  destruct (String.eqb k0 k') eqn:E0; simpl.
  - rewrite IH. apply String.eqb_eq in E0. subst k0. rewrite Hne.
    destruct (get k l); reflexivity.
  - rewrite IH. reflexivity.
Qed.

Lemma get_filter_same k o :
  get k (filter (fun kv => negb (String.eqb (fst kv) k)) o) = None.
Proof.
  induction o as [|[k0 v0] l IH]; simpl; [reflexivity|].
  destruct (String.eqb k0 k) eqn:E0; simpl; [exact IH|].
  rewrite IH. rewrite String.eqb_sym, E0. reflexivity.
Qed.

Lemma get_set_field k k' v o :
  get k (set_field k' v o) = if String.eqb k k' then v else get k o.
Proof.
  unfold set_field. destruct (String.eqb k k') eqn:E.
  - apply String.eqb_eq in E. subst k'. destruct v as [w|].
    + rewrite get_app_last, String.eqb_refl. reflexivity.
    + apply get_filter_same.
  - destruct v as [w|].
    + rewrite get_app_last, E. apply get_filter_other. exact E.
    + apply get_filter_other. exact E.
Qed.

(** X10: the metadata written by a webhook keeps every key of the stored
    metadata other than the six webhook keys, and gives those six the
    gateway's status, status detail, payment method, payment type, the
    webhook's action and the time of the delivery. *)
Theorem merged_metadata_lookup env o mp action k :
  (~ In k webhook_keys -> get k (merged_metadata env o mp action) = get k o)
  /\ get "mercadopago_status" (merged_metadata env o mp action)
     = str_field (mp_status mp)
  /\ get "mercadopago_status_detail" (merged_metadata env o mp action)
     = mp_status_detail mp
  /\ get "payment_method_id" (merged_metadata env o mp action)
     = mp_payment_method_id mp
  /\ get "payment_type_id" (merged_metadata env o mp action)
     = mp_payment_type_id mp
  /\ get "last_webhook_action" (merged_metadata env o mp action) = action
  /\ get "last_webhook_date" (merged_metadata env o mp action)
     = Some (JStr (now_iso env)).
Proof.
  unfold merged_metadata. split.
  - intro Hk. unfold webhook_keys in Hk. simpl in Hk.
    rewrite !get_set_field.
    repeat match goal with
           | |- context [String.eqb k ?s] =>
               let E := fresh "E" in
               destruct (String.eqb k s) eqn:E;
               [apply String.eqb_eq in E; subst k; exfalso; tauto|]
           end.
    reflexivity.
  - repeat split; rewrite !get_set_field; reflexivity.
Qed.

Lemma merged_metadata_lookup_witness :
  get "plan_id" (merged_metadata gateway_approves [("plan_id", JNum 3)]
                   approved_42 None)
  = get "plan_id" [("plan_id", JNum 3)].
Proof.
  apply (proj1 (merged_metadata_lookup gateway_approves [("plan_id", JNum 3)]
                  approved_42 None "plan_id")).
  unfold webhook_keys. simpl. intuition discriminate.
Defined.

(** *** Every delivery is answered, and is all or nothing *)

(** X11: no exception escapes the handler: every delivery is answered
    200, 400 or 500, and a delivery that is not answered 200 has written
    nothing. *)
Theorem webhook_answers_all_or_nothing env req_body db :
  exists r,
    response_of (webhook env req_body db) = Return r
    /\ (r = mkResponse 200 ReceivedProcessed
        \/ r = mkResponse 400 (Error "Invalid webhook structure")
        \/ r = mkResponse 500 (Error "Webhook processing failed"))
    /\ (r <> mkResponse 200 ReceivedProcessed ->
        db_of (webhook env req_body db) = db).
Proof.
  assert (H : exists r,
             response_of (webhook env req_body db) = Return r
             /\ (r = mkResponse 200 ReceivedProcessed
                 \/ r = mkResponse 400 (Error "Invalid webhook structure")
                 \/ r = mkResponse 500 (Error "Webhook processing failed"))).
  { rewrite webhook_run. unfold response_of.
    destruct (valid_structure req_body); [|eexists; split; [reflexivity|tauto]].
    destruct (dispatch env req_body db) as [[[u|e] db'] l];
      eexists; (split; [reflexivity|tauto]). }
  destruct H as (r & Hr & Hforms). exists r. repeat split; try assumption.
  intro Hne. apply unacknowledged_delivery_writes_nothing.
  rewrite Hr. congruence.
Qed.

Lemma webhook_answers_all_or_nothing_witness :
  db_of (webhook gateway_down payment_555 awaiting_payment) = awaiting_payment.
Proof.
  destruct (webhook_answers_all_or_nothing gateway_down payment_555
              awaiting_payment) as (r & Hr & _ & Hsame).
  apply Hsame. intro E. subst r. discriminate Hr.
Defined.

(** *** No row is created or removed, no identity is rewritten *)

Lemma map_update_key {R K} (key : R -> K) (c : R -> bool) (f : R -> R) rows :
  (forall r, key (f r) = key r) ->
  map key (map (fun r => if c r then f r else r) rows) = map key rows.
Proof.
  intro Hf. rewrite map_map. apply map_ext. intro r.
  destruct (c r); [apply Hf | reflexivity].
Qed.

Lemma update_by_ref_key {R K} (key : R -> K) (rid : R -> Z) ref (f : R -> R) rows :
  (forall r, key (f r) = key r) ->
  map key (update_by_ref rid ref f rows) = map key rows.
Proof.
  intro Hf. unfold update_by_ref. destruct (parseInt ref); [|reflexivity].
  apply map_update_key. exact Hf.
Qed.

(** X12: a delivery creates no row and removes none, and rewrites no
    identity: the ids of the three tables, the user and gym of every
    payment and the subscription of every subscription payment are as
    before. *)
Theorem webhook_keeps_rows env req_body db :
  keys (db_of (webhook env req_body db)) = keys db.
Proof.
  rewrite webhook_run.
  destruct (valid_structure req_body) eqn:Hv; [|reflexivity].
  destruct (is_str "payment" (get "type" req_body)) eqn:Hp.
  2:{ pose proof (dispatch_other_type env req_body db Hp) as Hd.
      unfold response_of, db_of in *.
      destruct (dispatch env req_body db) as [[[u|e] db'] l]; simpl in *;
        congruence. }
  unfold db_of, keys. open_handlers. rewrite Hp.
  by_cases; try reflexivity;
    cbn [payments subscriptionPayments subscriptions];
    unfold activate_where;
    rewrite ?map_update_key, ?update_by_ref_key by reflexivity;
    reflexivity.
Qed.

(** *** One branch per delivery *)

(** X13: a reference that matches a subscription payment never touches
    the one-off payments, even when a one-off payment has the same id; a
    reference that matches none never touches the subscription payments
    or the subscriptions. *)
Theorem subscription_payment_takes_precedence env req_body db mp ref :
  findById env (data_id req_body) = GwReturns (Some mp) ->
  mp_external_reference mp = Some ref ->
  (forall sp, find_by_ref sp_id ref (subscriptionPayments db) = Some sp ->
              payments (db_of (webhook env req_body db)) = payments db)
  /\ (find_by_ref sp_id ref (subscriptionPayments db) = None ->
      subscriptionPayments (db_of (webhook env req_body db))
      = subscriptionPayments db
      /\ subscriptions (db_of (webhook env req_body db)) = subscriptions db).
Proof.
  intros Hgw Href. rewrite webhook_run.
  destruct (valid_structure req_body) eqn:Hv; [|split; intros; repeat split].
  destruct (is_str "payment" (get "type" req_body)) eqn:Hp.
  2:{ pose proof (dispatch_other_type env req_body db Hp) as Hd.
      unfold response_of, db_of in *.
      destruct (dispatch env req_body db) as [[[u|e] db'] l]; simpl in *;
        subst; split; intros; repeat split. }
  unfold db_of. open_handlers. rewrite Hp, Hgw. simpl. rewrite Href. simpl.
  unfold find_by_ref. split.
  - intros sp. by_cases; intros; try congruence; reflexivity.
  - by_cases; intros; try congruence; split; reflexivity.
Qed.

Lemma subscription_payment_takes_precedence_witness :
  (payments (db_of (webhook gateway_approves_undated payment_555 shared_id_42))
   = payments shared_id_42)
  /\ (subscriptionPayments
        (db_of (webhook gateway_approves_17 payment_555 shared_id_42))
      = subscriptionPayments shared_id_42
      /\ subscriptions
           (db_of (webhook gateway_approves_17 payment_555 shared_id_42))
         = subscriptions shared_id_42).
Proof.
  split.
  - apply (proj1 (subscription_payment_takes_precedence gateway_approves_undated
                    payment_555 shared_id_42 approved_42_undated "42"
                    eq_refl eq_refl)
             (mkSubscriptionPayment 42 7 pending None None 0 None)).
    reflexivity.
  - apply (proj2 (subscription_payment_takes_precedence gateway_approves_17
                    payment_555 shared_id_42 approved_17 "17"
                    eq_refl eq_refl)).
    reflexivity.
Defined.

(** In that table the subscription payment is the one that is written, and
    in the other delivery the one-off payment 17. *)
Example scenario_shared_id :
  map sp_status
      (subscriptionPayments
         (db_of (webhook gateway_approves_undated payment_555 shared_id_42)))
  = [approved]
  /\ map pay_status
         (payments (db_of (webhook gateway_approves_17 payment_555 shared_id_42)))
     = [approved; pending].
Proof. split; reflexivity. Qed.

(** *** The one-off payment branch *)

(** An id that passed the envelope check and can be printed has a text. *)
Lemma valid_structure_payment_id req_body :
  valid_structure req_body = true ->
  renders (data_id req_body) = true ->
  exists mpid, toString (data_id req_body) = Some mpid.
Proof.
  unfold valid_structure, renders, template, toString. intros H Hr.
  apply andb_prop in H. destruct H as [_ H].
  destruct (data_id req_body) as [w|]; [|discriminate].
  destruct w as [| b | n | s | l | o]; try discriminate;
    match goal with
    | |- context [printable ?v] => destruct (printable v)
    end;
    try discriminate; eexists; reflexivity.
Qed.

Lemma payment_status_neq (a b : payment_status) :
  a <> b -> Payments.status_eqb a b = false.
Proof.
  intro H. destruct (Payments.status_eqb a b) eqn:E; [|reflexivity].
  apply payment_status_eqb_spec in E. contradiction.
Qed.

Lemma update_settled_only env n st mpid paymentDate meta rows :
  Forall2 (settled_only n st mpid paymentDate (now env)) rows
          (map (fun r => if pay_id r =? n
                         then update_payment env r st mpid paymentDate meta
                         else r) rows).
Proof.
  induction rows as [|r l IH]; simpl; constructor; [|exact IH].
  unfold settled_only. destruct (pay_id r =? n); simpl; tauto.
Qed.

(** X14: when the reference resolves to a one-off payment whose stored
    status differs from the mapped one, the id and the action of the
    envelope can be printed and the database calls go through, the
    delivery is answered 200, that payment takes the mapped status, the
    gateway's payment id, the gateway's approval date in whole seconds
    (none if the gateway reports none) and the time of the update, and
    nothing else changes. *)
Theorem one_off_payment_is_settled env req_body db mp ref p :
  valid_structure req_body = true ->
  is_str "payment" (get "type" req_body) = true ->
  renders (data_id req_body) = true ->
  renders (get "action" req_body) = true ->
  findById env (data_id req_body) = GwReturns (Some mp) ->
  mp_external_reference mp = Some ref -> ref <> "" ->
  find_by_ref sp_id ref (subscriptionPayments db) = None ->
  find_by_ref pay_id ref (payments db) = Some p ->
  pay_status p <> mapMercadoPagoStatus (status_or_pending mp) ->
  pay_metadata p <> Some MetaInvalid ->
  db_fails env SelectSubscriptionPayments = false ->
  db_fails env SelectPayments = false ->
  db_fails env UpdatePayments = false ->
  exists mpid,
    toString (data_id req_body) = Some mpid
    /\ response_of (webhook env req_body db)
       = Return (mkResponse 200 ReceivedProcessed)
    /\ Forall2 (settled_only (pay_id p)
                  (mapMercadoPagoStatus (status_or_pending mp)) mpid
                  (option_map (fun ms => ms / 1000) (mp_date_approved mp))
                  (now env))
               (payments db)
               (payments (db_of (webhook env req_body db)))
    /\ subscriptionPayments (db_of (webhook env req_body db))
       = subscriptionPayments db
    /\ subscriptions (db_of (webhook env req_body db)) = subscriptions db.
Proof.
  intros Hv Hp Hri Hra Hgw Href Hne Hnosp Hpay Hst Hmeta Hf1 Hf2 Hf3.
  destruct (valid_structure_payment_id req_body Hv Hri) as [mpid Hid].
  exists mpid. split; [exact Hid|].
  pose proof (find_by_ref_id _ _ _ _ Hpay) as Hn.
  apply String.eqb_neq in Hne. apply payment_status_neq in Hst.
  rewrite webhook_run, Hv. unfold response_of, db_of. open_handlers.
  rewrite Hp, Hri, Hra, Hgw. simpl. rewrite Href. simpl. rewrite Hne. simpl.
  rewrite Hn. simpl.
  rewrite Hf1. simpl. rewrite Hnosp. simpl. rewrite Hf2. simpl.
  rewrite Hpay. simpl. rewrite Hst. simpl. rewrite Hid. simpl.
  unfold update_by_ref. rewrite Hn.
  destruct (pay_metadata p) as [[o|]|]; try congruence; simpl;
    destruct (mp_date_approved mp) as [ms|]; simpl;
    rewrite Hf3; simpl;
    destruct (Payments.status_eqb (mapMercadoPagoStatus (status_or_pending mp))
                approved && negb (Payments.status_eqb (pay_status p) approved));
    simpl; repeat split; apply update_settled_only.
Qed.

Lemma one_off_payment_is_settled_witness :
  exists mpid,
    toString (data_id payment_555) = Some mpid
    /\ response_of (webhook gateway_approves_17 payment_555 one_off_17)
       = Return (mkResponse 200 ReceivedProcessed)
    /\ Forall2 (settled_only 17 approved mpid (Some approved_17_seconds) 1000)
               (payments one_off_17)
               (payments (db_of (webhook gateway_approves_17 payment_555 one_off_17)))
    /\ subscriptionPayments (db_of (webhook gateway_approves_17 payment_555 one_off_17))
       = subscriptionPayments one_off_17
    /\ subscriptions (db_of (webhook gateway_approves_17 payment_555 one_off_17))
       = subscriptions one_off_17.
Proof.
  apply (one_off_payment_is_settled gateway_approves_17 payment_555 one_off_17
           approved_17 "17"
           (mkPayment 17 3 1 pending None None 0
              (Some (MetaObj [("plan", JStr "monthly")]))));
    try reflexivity; discriminate.
Defined.

(** *** A write that cannot be done *)

(** X15: when a status change cannot be written because the gateway's
    payment has no id, the stored metadata is not valid JSON or the update
    is rejected, the delivery is answered 500 and nothing is written. *)
Theorem failed_write_is_answered_500 env req_body db mp ref :
  valid_structure req_body = true ->
  is_str "payment" (get "type" req_body) = true ->
  findById env (data_id req_body) = GwReturns (Some mp) ->
  mp_external_reference mp = Some ref -> ref <> "" ->
  db_fails env SelectSubscriptionPayments = false ->
  (forall sp,
      find_by_ref sp_id ref (subscriptionPayments db) = Some sp ->
      sp_status sp <> mapMercadoPagoStatus (status_or_pending mp) ->
      toString (mp_id mp) = None \/ sp_metadata sp = Some MetaInvalid
      \/ db_fails env UpdateSubscriptionPayments = true ->
      response_of (webhook env req_body db)
      = Return (mkResponse 500 (Error "Webhook processing failed"))
      /\ db_of (webhook env req_body db) = db)
  /\ (forall p,
        find_by_ref sp_id ref (subscriptionPayments db) = None ->
        db_fails env SelectPayments = false ->
        find_by_ref pay_id ref (payments db) = Some p ->
        pay_status p <> mapMercadoPagoStatus (status_or_pending mp) ->
        pay_metadata p = Some MetaInvalid \/ db_fails env UpdatePayments = true ->
        response_of (webhook env req_body db)
        = Return (mkResponse 500 (Error "Webhook processing failed"))
        /\ db_of (webhook env req_body db) = db).
Proof.
  intros Hv Hp Hgw Href Hne Hf1.
  apply String.eqb_neq in Hne.
  rewrite webhook_run, Hv. unfold response_of, db_of. open_handlers.
  rewrite Hp.
  destruct (renders (data_id req_body)) eqn:Hri; simpl;
    [|split; intros; split; reflexivity].
  destruct (renders (get "action" req_body)) eqn:Hra; simpl;
    [|split; intros; split; reflexivity].
  rewrite Hgw. simpl. rewrite Href. simpl. rewrite Hne. simpl.
  destruct (parseInt ref) as [n|] eqn:Hn; simpl;
    [|split; intros; split; reflexivity].
  rewrite Hf1. simpl. split.
  - intros sp Hsp Hst Hbad. rewrite Hsp. simpl.
    apply payment_status_neq in Hst. rewrite Hst. simpl.
    destruct (toString (mp_id mp)) as [mpid|] eqn:Hid; simpl;
      [|split; reflexivity].
    destruct (sp_metadata sp) as [[o|]|] eqn:Hm; simpl;
      try (split; reflexivity);
      (destruct (mp_date_approved mp) as [ms|]; simpl;
       [split; reflexivity|]);
      (destruct (db_fails env UpdateSubscriptionPayments) eqn:Hu; simpl;
       [split; reflexivity|]);
      destruct Hbad as [H | [H | H]]; discriminate.
  - intros p Hnosp Hf2 Hpay Hst Hbad. rewrite Hnosp. simpl.
    rewrite Hf2. simpl. rewrite Hpay. simpl.
    apply payment_status_neq in Hst. rewrite Hst. simpl.
    destruct (valid_structure_payment_id req_body Hv Hri) as [mpid Hid].
    rewrite Hid. simpl.
    destruct (pay_metadata p) as [[o|]|] eqn:Hm; simpl;
      try (split; reflexivity);
      (destruct (mp_date_approved mp) as [ms|]; simpl);
      (destruct (db_fails env UpdatePayments) eqn:Hu; simpl;
       [split; reflexivity|]);
      destruct Hbad as [H | H]; discriminate.
Qed.

Lemma failed_write_is_answered_500_witness :
  response_of (webhook gateway_approves payment_555 broken_metadata)
  = Return (mkResponse 500 (Error "Webhook processing failed"))
  /\ db_of (webhook gateway_approves payment_555 broken_metadata) = broken_metadata.
Proof.
  apply (proj1 (failed_write_is_answered_500 gateway_approves payment_555
                  broken_metadata approved_42 "42"
                  eq_refl eq_refl eq_refl eq_refl ltac:(discriminate) eq_refl)
           (mkSubscriptionPayment 42 7 pending None None 0 (Some MetaInvalid))).
  - reflexivity.
  - discriminate.
  - right. left. reflexivity.
Defined.

(** X21: a status change of a subscription payment is never written when
    the gateway's payment carries an approval date: the number computed
    for [paidAt] is refused by the timestamp column, the delivery is
    answered 500 and nothing is written; the subscription is not
    activated. *)
Theorem dated_approval_is_not_recorded env req_body db mp ref sp ms :
  valid_structure req_body = true ->
  is_str "payment" (get "type" req_body) = true ->
  findById env (data_id req_body) = GwReturns (Some mp) ->
  mp_external_reference mp = Some ref -> ref <> "" ->
  find_by_ref sp_id ref (subscriptionPayments db) = Some sp ->
  sp_status sp <> mapMercadoPagoStatus (status_or_pending mp) ->
  mp_date_approved mp = Some ms ->
  response_of (webhook env req_body db)
  = Return (mkResponse 500 (Error "Webhook processing failed"))
  /\ db_of (webhook env req_body db) = db.
Proof.
  intros Hv Hp Hgw Href Hne Hsp Hst Hdate.
  apply String.eqb_neq in Hne. apply payment_status_neq in Hst.
  pose proof (find_by_ref_id _ _ _ _ Hsp) as Hn.
  rewrite webhook_run, Hv. unfold response_of, db_of. open_handlers.
  rewrite Hp.
  destruct (renders (data_id req_body)); simpl; [|split; reflexivity].
  destruct (renders (get "action" req_body)); simpl; [|split; reflexivity].
  rewrite Hgw. simpl. rewrite Href. simpl. rewrite Hne. simpl.
  rewrite Hn. simpl.
  destruct (db_fails env SelectSubscriptionPayments); simpl;
    [split; reflexivity|].
  rewrite Hsp, Hst. simpl.
  destruct (toString (mp_id mp)) as [mpid|]; simpl; [|split; reflexivity].
  destruct (sp_metadata sp) as [[o|]|]; simpl;
    try (split; reflexivity);
    rewrite Hdate; simpl; split; reflexivity.
Qed.

Lemma dated_approval_is_not_recorded_witness :
  response_of (webhook gateway_approves payment_555 awaiting_payment)
  = Return (mkResponse 500 (Error "Webhook processing failed"))
  /\ db_of (webhook gateway_approves payment_555 awaiting_payment)
     = awaiting_payment.
Proof.
  apply (dated_approval_is_not_recorded gateway_approves payment_555
           awaiting_payment approved_42 "42"
           (mkSubscriptionPayment 42 7 pending None None 0 None)
           1700000000000);
    try reflexivity; discriminate.
Defined.

(** X22: a well-formed envelope whose first log line cannot be built,
    because the type, the id or the action it prints is an object that
    hides [toString], is answered 500 and nothing is written. *)
Theorem unprintable_envelope_is_answered_500 env req_body db :
  valid_structure req_body = true ->
  forallb renders (first_log_line req_body) = false ->
  response_of (webhook env req_body db)
  = Return (mkResponse 500 (Error "Webhook processing failed"))
  /\ db_of (webhook env req_body db) = db.
Proof.
  intros Hv Hnot. rewrite webhook_run, Hv. unfold response_of, db_of.
  unfold first_log_line in Hnot. open_handlers.
  destruct (is_str "payment" (get "type" req_body)); simpl in *.
  - destruct (renders (data_id req_body)); simpl in *;
      [|split; reflexivity].
    destruct (renders (get "action" req_body)); simpl in *;
      [discriminate | split; reflexivity].
  - destruct (is_str "subscription" (get "type" req_body)); simpl in *.
    + destruct (renders (data_id req_body)); simpl in *;
        [|split; reflexivity].
      destruct (renders (get "action" req_body)); simpl in *;
        [discriminate | split; reflexivity].
    + destruct (is_str "preapproval" (get "type" req_body)); simpl in *.
      * destruct (renders (data_id req_body)); simpl in *;
          [|split; reflexivity].
        destruct (renders (get "action" req_body)); simpl in *;
          [discriminate | split; reflexivity].
      * destruct (renders (get "type" req_body)); simpl in *;
          [discriminate | split; reflexivity].
Qed.

Lemma unprintable_envelope_is_answered_500_witness :
  response_of (webhook gateway_down unprintable_type awaiting_payment)
  = Return (mkResponse 500 (Error "Webhook processing failed"))
  /\ db_of (webhook gateway_down unprintable_type awaiting_payment)
     = awaiting_payment.
Proof.
  apply (unprintable_envelope_is_answered_500 gateway_down unprintable_type
           awaiting_payment); reflexivity.
Defined.

(** *** What an acknowledged delivery leaves behind *)

(** X16: after a delivery answered 200, the record the envelope resolves
    to holds the status the gateway's maps to, whatever it held before. *)
Theorem acknowledged_delivery_stores_mapped_status env req_body db s m :
  resolved_status env req_body db = Some (s, m) ->
  response_of (webhook env req_body db)
  = Return (mkResponse 200 ReceivedProcessed) ->
  resolved_status env req_body (db_of (webhook env req_body db)) = Some (m, m).
Proof.
  destruct (valid_structure req_body) eqn:Hv;
    [|unfold resolved_status; rewrite Hv; discriminate].
  destruct (is_str "payment" (get "type" req_body)) eqn:Hp;
    [|unfold resolved_status; rewrite Hv, Hp; discriminate].
  rewrite (resolved_status_run _ _ db Hv Hp).
  rewrite webhook_run, Hv.
  unfold response_of, db_of. open_handlers. rewrite Hp.
  by_cases; intros Hres H200; try discriminate; clear H200; some_eq;
    rewrite (resolved_status_run _ _ _ Hv Hp); simpl;
    repeat match goal with
           | H : ?t = _ |- context [?t] => progress (rewrite H; simpl)
           end;
    try match goal with
        | H : find_by_ref sp_id _ _ = Some _ |- _ =>
            rewrite (find_by_ref_subscriptionPayment_updated _ _ _ _ _ _ _ _ H)
        end;
    try match goal with
        | H : find_by_ref pay_id _ _ = Some _ |- _ =>
            rewrite (find_by_ref_payment_updated _ _ _ _ _ _ _ _ H)
        end;
    simpl; injection Hres as Hs Hm; subst;
    try reflexivity;
    match goal with
    | H : negb (Payments.status_eqb _ _) = false |- _ =>
        apply negb_false_iff in H; apply payment_status_eqb_spec in H;
        rewrite H; reflexivity
    end.
Qed.

Lemma acknowledged_delivery_stores_mapped_status_witness :
  resolved_status gateway_approves_17 payment_555
    (db_of (webhook gateway_approves_17 payment_555 one_off_17))
  = Some (approved, approved)
  /\ resolved_status gateway_approves_undated payment_555
       (db_of (webhook gateway_approves_undated payment_555 awaiting_payment))
     = Some (approved, approved).
Proof.
  split.
  - apply (acknowledged_delivery_stores_mapped_status gateway_approves_17
             payment_555 one_off_17 pending approved); reflexivity.
  - apply (acknowledged_delivery_stores_mapped_status gateway_approves_undated
             payment_555 awaiting_payment pending approved); reflexivity.
Defined.

End PaymentInvariants.

(** ** The second webhook *)

Section Sdk2Facts.
Import Js Payments PaymentSpec PaymentInv PaymentsSdk2.

(** X17: the second webhook answers 500 exactly when the type is payment
    and [data] is absent or null; every other delivery is answered 200,
    also when the gateway call or the update throws; other types write
    nothing. *)
Theorem sdk2_webhook_answers env req_body db :
  (is_str "payment" (get "type" req_body) = true
   /\ (get "data" req_body = None \/ get "data" req_body = Some JNull) ->
   webhook env req_body db
   = (mkResponse 500 (Error "Webhook processing failed"), db,
      [LogWebhookReceived; ErrorWebhook TypeError]))
  /\ (~ (is_str "payment" (get "type" req_body) = true
         /\ (get "data" req_body = None \/ get "data" req_body = Some JNull)) ->
      fst (fst (webhook env req_body db)) = mkResponse 200 Received)
  /\ (is_str "payment" (get "type" req_body) = false ->
      snd (fst (webhook env req_body db)) = db).
Proof.
  unfold webhook. split; [|split].
  - intros [Hp [Hd | Hd]]; rewrite Hp, Hd; reflexivity.
  - intro Hnot.
    destruct (is_str "payment" (get "type" req_body)); [|reflexivity].
    destruct (get "data" req_body) as [d|]; [|exfalso; tauto].
    destruct d; try (exfalso; tauto);
      match goal with
      | |- context [findById env ?i] => destruct (findById env i) as [|[mp|]]
      end; try reflexivity;
      destruct (truthy (str_field (mp_external_reference mp)));
      try reflexivity;
      match goal with
      | |- context [toString ?i] => destruct (toString i)
      end; try reflexivity;
      match goal with
      | |- context [parseInt ?r] => destruct (parseInt r)
      end; try reflexivity;
      destruct (db_fails env UpdatePayments); reflexivity.
  - intro Hp. rewrite Hp. reflexivity.
Qed.

Lemma sdk2_webhook_answers_witness :
  webhook gateway_down [("type", JStr "payment")] awaiting_payment
  = (mkResponse 500 (Error "Webhook processing failed"), awaiting_payment,
     [LogWebhookReceived; ErrorWebhook TypeError])
  /\ fst (fst (webhook gateway_down payment_555 awaiting_payment))
     = mkResponse 200 Received.
Proof.
  split.
  - apply (proj1 (sdk2_webhook_answers gateway_down [("type", JStr "payment")]
                    awaiting_payment)).
    split; [reflexivity | left; reflexivity].
  - apply (proj1 (proj2 (sdk2_webhook_answers gateway_down payment_555
                           awaiting_payment))).
    intros [_ [H | H]]; discriminate H.
Defined.

Lemma update_restamped_only now n st mpid rows :
  Forall2 (restamped_only n st mpid now) rows
          (map (fun r => if pay_id r =? n
                         then update_payment now r st mpid else r) rows).
Proof.
  induction rows as [|r l IH]; simpl; constructor; [|exact IH].
  unfold restamped_only, update_payment. destruct (pay_id r =? n); reflexivity.
Qed.

(** X18: the second webhook has no status comparison: when the gateway
    returns a payment with a reference and the update goes through, every
    payment with the referenced id takes the mapped status, the payment id
    and the time of the delivery, also when its status was already that
    one; its date and metadata, the other payments, the subscription
    payments and the subscriptions are untouched. *)
Theorem sdk2_webhook_restamps env req_body db d mp ref n mpid :
  is_str "payment" (get "type" req_body) = true ->
  get "data" req_body = Some d -> d <> JNull ->
  findById env (prop "id" d) = GwReturns (Some mp) ->
  mp_external_reference mp = Some ref -> ref <> "" ->
  parseInt ref = Some n ->
  toString (prop "id" d) = Some mpid ->
  db_fails env UpdatePayments = false ->
  fst (fst (webhook env req_body db)) = mkResponse 200 Received
  /\ Forall2 (restamped_only n (mapMercadoPagoStatus (status_or_pending mp))
                mpid (now env))
             (payments db)
             (payments (snd (fst (webhook env req_body db))))
  /\ subscriptionPayments (snd (fst (webhook env req_body db)))
     = subscriptionPayments db
  /\ subscriptions (snd (fst (webhook env req_body db))) = subscriptions db.
Proof.
  intros Hp Hd Hnn Hgw Href Hne Hn Hid Hf.
  apply String.eqb_neq in Hne.
  unfold webhook. rewrite Hp, Hd. cbv zeta.
  remember (prop "id" d) as i eqn:Hi.
  destruct d; try congruence;
    rewrite Hgw; simpl; rewrite Href; simpl; rewrite Hne; simpl;
    rewrite Hid, Hn, Hf; simpl; unfold update_by_ref; rewrite Hn;
    repeat split; apply update_restamped_only.
Qed.

Lemma sdk2_webhook_restamps_witness :
  fst (fst (webhook gateway_approves_17 payment_555 approved_payment_17))
  = mkResponse 200 Received
  /\ Forall2 (restamped_only 17 approved "555" 1000)
             (payments approved_payment_17)
             (payments (snd (fst (webhook gateway_approves_17 payment_555
                                    approved_payment_17))))
  /\ subscriptionPayments
       (snd (fst (webhook gateway_approves_17 payment_555 approved_payment_17)))
     = subscriptionPayments approved_payment_17
  /\ subscriptions
       (snd (fst (webhook gateway_approves_17 payment_555 approved_payment_17)))
     = subscriptions approved_payment_17.
Proof.
  apply (sdk2_webhook_restamps gateway_approves_17 payment_555
           approved_payment_17 (JObj [("id", JStr "555")]) approved_17 "17" 17
           "555"); try reflexivity; discriminate.
Defined.
End Sdk2Facts.

(** ** Reading one payment *)

Section PaymentAccessFacts.
Import Js Payments PaymentAccess.

Lemma includes_spec ownerId gyms x :
  includes (map gym_id (filter (fun g => gym_ownerId g =? ownerId) gyms)) x = true
  <-> exists g, In g gyms /\ gym_ownerId g = ownerId /\ gym_id g = x.
Proof.
  unfold includes. rewrite existsb_exists. split.
  - intros (i & Hin & Hi). apply Z.eqb_eq in Hi. subst i.
    apply in_map_iff in Hin. destruct Hin as (g & Hg & Hin).
    apply filter_In in Hin. destruct Hin as [Hin Ho].
    apply Z.eqb_eq in Ho. exists g. tauto.
  - intros (g & Hin & Ho & Hg). exists x. split; [|apply Z.eqb_refl].
    apply in_map_iff. exists g. split; [exact Hg|].
    apply filter_In. split; [exact Hin | apply Z.eqb_eq; exact Ho].
Qed.

(** X19: [GET /:paymentId] answers 200 with a payment exactly when the
    path id is a number that resolves to it, the selects the handler runs
    go through, and the caller is the gym user it belongs to or the owner
    of the gym it was paid to; a path id that is not a number is answered
    500, as is a rejected select. *)
Theorem get_payment_discloses_iff db_fails req_user param pays gyms p :
  (get_payment db_fails req_user param pays gyms = mkResponse 200 (PaymentBody p)
   <-> (exists paymentId,
           parseInt param = Some paymentId
           /\ find (fun q => pay_id q =? paymentId) pays = Some p)
       /\ (exists u, req_user = Some u /\ may_read u p gyms
                     /\ reads_succeed db_fails u))
  /\ (parseInt param = None \/ db_fails SelectPayment = true ->
      get_payment db_fails req_user param pays gyms = failed).
Proof.
  unfold get_payment, reads_succeed, failed. split; [split|].
  - destruct (parseInt param) as [n|]; [|discriminate].
    destruct (db_fails SelectPayment) eqn:Hf1; [discriminate|].
    destruct (find (fun q => pay_id q =? n) pays) as [q|] eqn:Hf; [|discriminate].
    destruct req_user as [[userId gymId | ownerId]|]; [| |discriminate].
    + destruct (pay_userId q =? userId) eqn:E; simpl; [|discriminate].
      intro H. injection H as <-. apply Z.eqb_eq in E.
      split; [exists n; tauto | exists (GymUser userId gymId); simpl; tauto].
    + destruct (db_fails SelectGyms) eqn:Hf2; [discriminate|].
      destruct (includes _ (pay_gymId q)) eqn:E; simpl; [|discriminate].
      intro H. injection H as <-. apply includes_spec in E.
      split; [exists n; tauto | exists (GymOwner ownerId); simpl; tauto].
  - intros [(n & Hn & Hf) (u & Hu & Hmay & Hf1 & Hf2)]. rewrite Hn, Hf1, Hf, Hu.
    destruct u as [userId gymId | ownerId]; simpl in Hmay.
    + rewrite Hmay, Z.eqb_refl. reflexivity.
    + rewrite Hf2. apply includes_spec in Hmay. rewrite Hmay. reflexivity.
  - intros [Hnan | Hf1]; [rewrite Hnan; reflexivity|].
    destruct (parseInt param); [rewrite Hf1|]; reflexivity.
Qed.

Lemma get_payment_discloses_iff_witness :
  get_payment no_faults (Some (GymOwner 5)) "17"
    [mkPayment 17 3 1 pending None None 0 None] [mkGym 1 5]
  = mkResponse 200 (PaymentBody (mkPayment 17 3 1 pending None None 0 None))
  /\ get_payment no_faults (Some (GymOwner 5)) "seventeen"
       [mkPayment 17 3 1 pending None None 0 None] [mkGym 1 5]
     = failed.
Proof.
  split.
  - apply (proj2 (proj1 (get_payment_discloses_iff no_faults (Some (GymOwner 5))
                           "17" [mkPayment 17 3 1 pending None None 0 None]
                           [mkGym 1 5]
                           (mkPayment 17 3 1 pending None None 0 None)))).
    split.
    + exists 17. split; reflexivity.
    + exists (GymOwner 5). split; [reflexivity|]. split.
      * simpl. exists (mkGym 1 5). repeat split. left. reflexivity.
      * split; reflexivity.
  - apply (proj2 (get_payment_discloses_iff no_faults (Some (GymOwner 5))
                    "seventeen" [mkPayment 17 3 1 pending None None 0 None]
                    [mkGym 1 5]
                    (mkPayment 17 3 1 pending None None 0 None))).
    left. reflexivity.
Defined.

End PaymentAccessFacts.

(** ** References handed out and handed back *)

Section RoundTrips.
Import Js.

(** X9: in a table with unique ids, the reference text made from a
    record's id resolves to that very record. *)
Theorem reference_resolves_to_its_record {R} (rid : R -> Z) (rows : list R) (r : R) :
  In r rows -> NoDup (map rid rows) ->
  Payments.find_by_ref rid (string_of_Z (rid r)) rows = Some r.
Proof.
  intros Hin Hnd. unfold Payments.find_by_ref.
  rewrite (parseInt_decimal (rid r)).
  induction rows as [|a l IH]; simpl in *; [contradiction|].
  inversion Hnd as [|? ? Hnot Hnd']; subst.
  destruct Hin as [-> | Hin].
  - rewrite Z.eqb_refl. reflexivity.
  - destruct (rid a =? rid r) eqn:E; [|exact (IH Hin Hnd')].
    exfalso. apply Z.eqb_eq in E. apply Hnot. rewrite E.
    apply in_map. exact Hin.
Qed.

Lemma reference_resolves_to_its_record_witness :
  Payments.find_by_ref Payments.pay_id
    (string_of_Z (Payments.pay_id (Payments.mkPayment 17 3 1 Payments.pending None None 0 None)))
    [Payments.mkPayment 16 2 1 Payments.approved None None 0 None;
     Payments.mkPayment 17 3 1 Payments.pending None None 0 None]
  = Some (Payments.mkPayment 17 3 1 Payments.pending None None 0 None).
Proof.
  apply (reference_resolves_to_its_record Payments.pay_id
           [Payments.mkPayment 16 2 1 Payments.approved None None 0 None;
            Payments.mkPayment 17 3 1 Payments.pending None None 0 None]
           (Payments.mkPayment 17 3 1 Payments.pending None None 0 None)).
  - right. left. reflexivity.
  - simpl. repeat constructor; simpl; intuition discriminate.
Defined.

End RoundTrips.
